(** * Prompt generator: extraction of template variables and template filling

    A shallow embedding of [main.py]: the JSON extractor
    ([fetch_and_populate_variables_action]), the placeholder substitution
    ([generate_prompt_action]) and the CSV upload handling of [run_ui],
    followed by the properties of these functions. *)

From Stdlib Require Import ZArith QArith Ascii String List Lia Bool DecimalString.
From stdpp Require Import base strings gmap.

Local Open Scope nat_scope.

(** ** Python strings

    A text is kept as the string of its UTF-8 bytes.  What the program
    searches for (the tokens, the braces, the newline) is ASCII, and an ASCII
    byte is never part of the encoding of another character, so that
    searching and replacing bytes is searching and replacing characters. *)

Module PyStr.

(** [s.startswith(p)] *)
Fixpoint startswith (s p : string) {struct p} : bool :=
  match p, s with
  | EmptyString, _ => true
  | String _ _, EmptyString => false
  | String a p', String b s' => Ascii.eqb a b && startswith s' p'
  end.

(** [s[n:]] *)
Fixpoint drop (n : nat) (s : string) : string :=
  match n, s with
  | O, _ => s
  | S _, EmptyString => ""
  | S n', String _ s' => drop n' s'
  end.

(** [sub in s] *)
Fixpoint occurs (sub s : string) : bool :=
  startswith s sub ||
  match s with
  | EmptyString => false
  | String _ s' => occurs sub s'
  end.

(** [sep.join(l)] *)
Fixpoint join (sep : string) (l : list string) : string :=
  match l with
  | [] => ""
  | [x] => x
  | x :: l' => x +:+ sep +:+ join sep l'
  end.

(** [s.replace(old, new)] for a non-empty [old]: the text is scanned from
    the left; where [old] starts, [new] is emitted and the scan resumes
    behind the occurrence (the [skip] counter holds the characters of the
    occurrence still to be passed over), so occurrences do not overlap and
    the emitted text is never scanned. *)
Fixpoint replace_from (old new : string) (skip : nat) (s : string) : string :=
  match s with
  | EmptyString => ""
  | String c s' =>
      match skip with
      | S k => replace_from old new k s'
      | O =>
          if startswith s old
          then new +:+ replace_from old new (String.length old - 1) s'
          else String c (replace_from old new 0 s')
      end
  end.

(** With an empty [old], Python puts [new] before every character and at
    the end. *)
Fixpoint replace_empty (new s : string) : string :=
  match s with
  | EmptyString => new
  | String c s' => new +:+ String c (replace_empty new s')
  end.

Definition replace (old new s : string) : string :=
  match old with
  | EmptyString => replace_empty new s
  | String _ _ => replace_from old new 0 s
  end.

End PyStr.

(** ** The regular expression of the template scan *)

Module Re.

Definition newline : ascii := "010"%char.

(** The lazy group and the closing braces of [\{\{(.*?)\}\}], tried at the
    text behind an opening ["{{"]: the shortest run of characters other
    than a newline that is followed by ["}}"]. *)
Fixpoint match_inner (s : string) : option string :=
  match s with
  | EmptyString => None
  | String c s' =>
      if PyStr.startswith s "}}" then Some ""
      else if Ascii.eqb c newline then None
      else option_map (String c) (match_inner s')
  end.

(** [re.findall(r"\{\{(.*?)\}\}", s)]: the captured groups of the
    non-overlapping matches, leftmost first.  A match of inner text [u]
    spans [String.length u + 4] characters. *)
Fixpoint findall_from (skip : nat) (s : string) : list string :=
  match s with
  | EmptyString => []
  | String _ s' =>
      match skip with
      | S k => findall_from k s'
      | O =>
          if PyStr.startswith s "{{" then
            match match_inner (PyStr.drop 2 s) with
            | Some u => u :: findall_from (String.length u + 3) s'
            | None => findall_from 0 s'
            end
          else findall_from 0 s'
      end
  end.

Definition findall (s : string) : list string := findall_from 0 s.

End Re.

(** ** Python values

    The values [response.json()] can return, which are also the values a
    session dictionary or an answer payload can hold. *)

Inductive pyfloat :=
| Finite (q : Q)
| Infinity (negative : bool)
| NaN.

#[warnings="-register-all"] Inductive pyval :=
| PNone
| PBool (b : bool)
| PInt (z : Z)
| PFloat (f : pyfloat)
| PStr (s : string)
| PList (items : list pyval)
| PDict (entries : list (string * pyval)).

(** A dict is kept as the list of its items in insertion order. *)
Fixpoint dict_lookup (key : string) (d : list (string * pyval)) : option pyval :=
  match d with
  | [] => None
  | (k, v) :: d' => if String.eqb k key then Some v else dict_lookup key d'
  end.

(** [d.get(key, default)] *)
Definition dict_get (d : list (string * pyval)) (key : string) (default : pyval) : pyval :=
  match dict_lookup key d with
  | Some v => v
  | None => default
  end.

(** [d[key] = v]: an existing key keeps its position, a new one goes last. *)
Fixpoint dict_set (key : string) (v : pyval) (d : list (string * pyval))
  : list (string * pyval) :=
  match d with
  | [] => [(key, v)]
  | (k, w) :: d' => if String.eqb k key then (k, v) :: d' else (k, w) :: dict_set key v d'
  end.

(** Truth value of a Python object, as [if x:] tests it. *)
Definition truthy (v : pyval) : bool :=
  match v with
  | PNone => false
  | PBool b => b
  | PInt z => negb (Z.eqb z 0)
  | PFloat (Finite q) => negb (Z.eqb (Qnum q) 0)
  | PFloat _ => true
  | PStr s => negb (String.eqb s "")
  | PList items => match items with [] => false | _ => true end
  | PDict entries => match entries with [] => false | _ => true end
  end.

Definition isinstance_str (v : pyval) : bool :=
  match v with PStr _ => true | _ => false end.

(** [v == "..."] for a string literal. *)
Definition eq_str (v : pyval) (lit : string) : bool :=
  match v with PStr s => String.eqb s lit | _ => false end.

(** ** The whitelist *)

Definition PREDEFINED_VARIABLES : list string :=
  [ "task_instruction"; "vocabulary_list"; "grammar_reference";
    "communication_reference"; "guiding_questions"; "can_do_statements" ].

Definition ALL_POSSIBLE_VARIABLES : list string :=
  PREDEFINED_VARIABLES ++ ["student_answer"].

(** [x in l] for a list of strings. *)
Definition in_list (x : string) (l : list string) : bool :=
  existsb (String.eqb x) l.

(** ** Exceptions, the session and what the page shows *)

Inductive exn :=
| ConnectionError          (* requests.exceptions.ConnectionError *)
| Timeout                  (* requests.exceptions.Timeout *)
| HTTPError                (* requests.exceptions.HTTPError *)
| RequestsJSONDecodeError  (* requests.exceptions.JSONDecodeError *)
| JSONDecodeError          (* json.JSONDecodeError *)
| KeyError
| AttributeError
| ParserError.             (* pandas.errors.ParserError and the like *)

Definition is_RequestException (e : exn) : bool :=
  match e with
  | ConnectionError | Timeout | HTTPError | RequestsJSONDecodeError => true
  | _ => false
  end.

Definition is_JSONDecodeError (e : exn) : bool :=
  match e with
  | RequestsJSONDecodeError | JSONDecodeError => true
  | _ => false
  end.

Definition is_KeyError (e : exn) : bool :=
  match e with KeyError => true | _ => false end.

Inductive level := Info | Warning | Error | Success.

(** The texts of the [st.info], [st.warning], [st.error] and [st.success]
    calls, by call site, with the values their f-strings print. *)
Inductive notice :=
| EnterContentUrl
| FetchingFrom (content_url : string)
| NoInteractions
| NoReferenceScreens
| NoSecondaryScreens
| FetchedAndProcessed
| ErrorFetchingUrl (e : exn)
| ErrorParsingJson (e : exn)
| ErrorAccessingKey (e : exn)
| UnexpectedFetchError (e : exn)
| NonAllowedVariables (names : gset string)
| NoAnswerInTextBox
| NoAnswersFromCsv
| NoAnswersExtracted
| InvalidAnswerMethod
| NoPromptsGenerated
| ProcessingComplete
| CsvRead (count : nat) (name : string)
| CsvMissingAnswers
| CsvProcessingError (e : exn)
| UsingPreviousCsv (name : string) (count : nat)
| CsvUploaderEmpty.

(** The part of [st.session_state] the three operations touch, and the
    notices shown so far (oldest first). *)
Record session := {
  fetched_variable_values : gmap string pyval;
  uploaded_csv_answers : option (list pyval);
  last_uploaded_filename : option string;
  single_answer : pyval;
  shown : list (level * notice)
}.

Definition set_fetched (m : gmap string pyval) (st : session) : session :=
  {| fetched_variable_values := m;
     uploaded_csv_answers := uploaded_csv_answers st;
     last_uploaded_filename := last_uploaded_filename st;
     single_answer := single_answer st;
     shown := shown st |}.

Definition set_csv (answers : option (list pyval)) (name : option string)
    (st : session) : session :=
  {| fetched_variable_values := fetched_variable_values st;
     uploaded_csv_answers := answers;
     last_uploaded_filename := name;
     single_answer := single_answer st;
     shown := shown st |}.

Definition set_single_answer (v : pyval) (st : session) : session :=
  {| fetched_variable_values := fetched_variable_values st;
     uploaded_csv_answers := uploaded_csv_answers st;
     last_uploaded_filename := last_uploaded_filename st;
     single_answer := v;
     shown := shown st |}.

Definition show (l : level) (n : notice) (st : session) : session :=
  {| fetched_variable_values := fetched_variable_values st;
     uploaded_csv_answers := uploaded_csv_answers st;
     last_uploaded_filename := last_uploaded_filename st;
     single_answer := single_answer st;
     shown := shown st ++ [(l, n)] |}.

(** Statements that read and write the session and may raise. *)
Inductive result (A : Type) :=
| Returned (a : A)
| Raised (e : exn).
Arguments Returned {A} a.
Arguments Raised {A} e.

Definition action (A : Type) : Type := session -> session * result A.

Definition ret {A} (a : A) : action A := fun st => (st, Returned a).

Definition raise {A} (e : exn) : action A := fun st => (st, Raised e).

Definition bind {A B} (c : action A) (k : A -> action B) : action B :=
  fun st =>
    match c st with
    | (st', Returned a) => k a st'
    | (st', Raised e) => (st', Raised e)
    end.

Definition st_show (l : level) (n : notice) : action unit :=
  fun st => (show l n st, Returned tt).

Definition update (f : session -> session) : action unit :=
  fun st => (f st, Returned tt).

(** [try: body  except ...: handler(e)]; every clause of the handlers below
    falls through to the code behind the [try] statement. *)
Definition try_except {A} (body : action A) (handler : exn -> action A) : action A :=
  fun st =>
    match body st with
    | (st', Returned a) => (st', Returned a)
    | (st', Raised e) => handler e st'
    end.

Declare Scope action_scope.
Delimit Scope action_scope with action.
Notation "x <- c ;; k" := (bind c (fun x => k))
  (at level 100, c at next level, right associativity) : action_scope.
Notation "c ;; k" := (bind c (fun _ => k))
  (at level 100, right associativity) : action_scope.

(** ** The remote endpoint *)

(** What the three calls [requests.get], [raise_for_status] and
    [response.json] do for the URL at hand. *)
Inductive response :=
| GetRaises (e : exn)
| StatusRaises
| JsonRaises (e : exn)
| Json (activity_data : pyval).

(** [repr] of floats and containers is Python's own business (shortest
    round-trip digits, quoting and escaping of nested strings); no property
    below depends on it, so it is a parameter of the model. *)
Class Repr := py_repr : pyval -> string.

Section Model.

Context `{Repr}.

(** [str(v)] *)
Definition py_str (v : pyval) : string :=
  match v with
  | PStr s => s
  | PNone => "None"
  | PBool true => "True"
  | PBool false => "False"
  | PInt z => NilZero.string_of_int (Z.to_int z)
  | PFloat _ | PList _ | PDict _ => py_repr v
  end.

(** [f"- {x}"] *)
Definition bullet (x : pyval) : string := "- " +:+ py_str x.

Local Open Scope action_scope.

(** *** [fetch_and_populate_variables_action] *)

(** [obj.get(key, default)] on a value that may not be a dict. *)
Definition attr_get (obj : pyval) (key : string) (default : pyval) : action pyval :=
  match obj with
  | PDict d => ret (dict_get d key default)
  | _ => raise AttributeError
  end.

Definition http_get_json (net : response) : action pyval :=
  match net with
  | GetRaises e => raise e
  | StatusRaises => raise HTTPError
  | JsonRaises e => raise e
  | Json activity_data => ret activity_data
  end.

(** The six local variables of the extraction. *)
Record locals := {
  task_instruction_val : pyval;
  vocabulary_list_str : string;
  grammar_reference_val : pyval;
  communication_reference_val : pyval;
  guiding_questions_val : string;
  can_do_statements_val : string
}.

Definition initial_locals : locals :=
  {| task_instruction_val := PStr "";
     vocabulary_list_str := "";
     grammar_reference_val := PStr "";
     communication_reference_val := PStr "";
     guiding_questions_val := "";
     can_do_statements_val := "" |}.

(** The comprehension over [can_do_statement_list_raw]. *)
Definition can_do_statement_list (raw : list pyval) : list pyval :=
  flat_map
    (fun stmt =>
       match stmt with
       | PDict d =>
           if truthy (dict_get d "statement" PNone)
           then [dict_get d "statement" (PStr "")]
           else []
       | _ => []
       end)
    raw.

Definition newline_str : string := String Re.newline "".

(** Lines 47-61.  The test [interactions and isinstance(interactions, list)
    and len(interactions) > 0] holds exactly of a non-empty list. *)
Definition extract_interactions (interactions : pyval) (v : locals) : action locals :=
  match interactions with
  | PList (interaction :: _) =>
      match interaction with
      | PDict i =>
          let task := dict_get i "instruction" (PStr "") in
          let can_do :=
            match dict_get i "canDoStatement" (PList []) with
            | PList raw =>
                PyStr.join newline_str (map bullet (can_do_statement_list raw))
            | _ => can_do_statements_val v
            end in
          ret {| task_instruction_val := task;
                 vocabulary_list_str := vocabulary_list_str v;
                 grammar_reference_val := grammar_reference_val v;
                 communication_reference_val := communication_reference_val v;
                 guiding_questions_val := guiding_questions_val v;
                 can_do_statements_val := can_do |}
      | _ => ret v
      end
  | _ => st_show Warning NoInteractions ;; ret v
  end.

(** One round of the loop over [reference_screens] (lines 68-79), on the
    list of vocabulary items and the two reference variables. *)
Definition reference_screen_step (acc : list string * pyval * pyval) (ref : pyval)
  : list string * pyval * pyval :=
  let '(vocabulary_items_list, grammar, communication) := acc in
  match ref with
  | PDict r =>
      let category := dict_get r "category" PNone in
      let contents := dict_get r "contents" PNone in
      match contents with
      | PDict c =>
          if eq_str category "vocabulary" then
            match dict_get c "vocabularyList" (PList []) with
            | PList vocab_list_from_json =>
                (vocabulary_items_list
                   ++ map py_str (List.filter truthy vocab_list_from_json),
                 grammar, communication)
            | _ => acc
            end
          else if eq_str category "grammar" then
            (vocabulary_items_list, dict_get c "reference" (PStr ""), communication)
          else if eq_str category "communication" then
            (vocabulary_items_list, grammar, dict_get c "reference" (PStr ""))
          else acc
      | _ => acc
      end
  | _ => acc
  end.

(** Lines 64-83. *)
Definition extract_reference_screens (reference_screens : pyval) (v : locals)
  : action locals :=
  match reference_screens with
  | PList screens =>
      let '(vocabulary_items_list, grammar, communication) :=
        fold_left reference_screen_step screens
          ([], grammar_reference_val v, communication_reference_val v) in
      ret {| task_instruction_val := task_instruction_val v;
             vocabulary_list_str :=
               match vocabulary_items_list with
               | [] => vocabulary_list_str v
               | _ => PyStr.join ", " vocabulary_items_list
               end;
             grammar_reference_val := grammar;
             communication_reference_val := communication;
             guiding_questions_val := guiding_questions_val v;
             can_do_statements_val := can_do_statements_val v |}
  | _ => st_show Warning NoReferenceScreens ;; ret v
  end.

(** The questions one screen adds to [guiding_questions_list_raw]
    (lines 90-97). *)
Definition screen_questions (screen : pyval) : list string :=
  match screen with
  | PDict sc =>
      match dict_get sc "contents" (PList []) with
      | PList secondary_content_items =>
          flat_map
            (fun item =>
               match item with
               | PDict it =>
                   let question_text := dict_get it "secondaryContent" PNone in
                   if truthy question_text then [py_str question_text] else []
               | _ => []
               end)
            secondary_content_items
      | _ => []
      end
  | _ => []
  end.

(** Lines 86-101. *)
Definition extract_secondary_screens (secondary_screens : pyval) (v : locals)
  : action locals :=
  match secondary_screens with
  | PList screens =>
      let guiding_questions_list_raw := flat_map screen_questions screens in
      ret {| task_instruction_val := task_instruction_val v;
             vocabulary_list_str := vocabulary_list_str v;
             grammar_reference_val := grammar_reference_val v;
             communication_reference_val := communication_reference_val v;
             guiding_questions_val :=
               match guiding_questions_list_raw with
               | [] => guiding_questions_val v
               | _ => PyStr.join newline_str
                        (map (fun q => "- " +:+ q) guiding_questions_list_raw)
               end;
             can_do_statements_val := can_do_statements_val v |}
  | _ => st_show Warning NoSecondaryScreens ;; ret v
  end.

(** Lines 104-109. *)
Definition populate (v : locals) (m : gmap string pyval) : gmap string pyval :=
  <["can_do_statements" := PStr (can_do_statements_val v)]>
  (<["guiding_questions" := PStr (guiding_questions_val v)]>
  (<["communication_reference" := communication_reference_val v]>
  (<["grammar_reference" := grammar_reference_val v]>
  (<["vocabulary_list" := PStr (vocabulary_list_str v)]>
  (<["task_instruction" := task_instruction_val v]> m))))).

(** The body of the [try] statement (lines 34-112). *)
Definition fetch_body (net : response) : action bool :=
  activity_data <- http_get_json net ;;
  interactions <- attr_get activity_data "interactions" (PList []) ;;
  v <- extract_interactions interactions initial_locals ;;
  reference_screens <- attr_get activity_data "referenceScreens" (PList []) ;;
  v <- extract_reference_screens reference_screens v ;;
  secondary_screens <- attr_get activity_data "secondaryScreens" (PList []) ;;
  v <- extract_secondary_screens secondary_screens v ;;
  update (fun st => set_fetched (populate v (fetched_variable_values st)) st) ;;
  st_show Success FetchedAndProcessed ;;
  ret true.

(** The [except] clauses in their order (lines 114-121); each shows an
    error and falls through. *)
Definition fetch_handler (e : exn) : action unit :=
  if is_RequestException e then st_show Error (ErrorFetchingUrl e)
  else if is_JSONDecodeError e then st_show Error (ErrorParsingJson e)
  else if is_KeyError e then st_show Error (ErrorAccessingKey e)
  else st_show Error (UnexpectedFetchError e).

(** One round of the loop of lines 124-128. *)
Definition ensure_initialized (m : gmap string pyval) (var_name : string)
  : gmap string pyval :=
  match m !! var_name with
  | None => <[var_name := PStr ""]> m
  | Some PNone => <[var_name := PStr ""]> m
  | Some _ => m
  end.

Definition empty_variables : gmap string pyval :=
  list_to_map (map (fun var => (var, PStr "")) PREDEFINED_VARIABLES).

Definition fetch_and_populate_variables_action (content_url : string) (net : response)
  : action bool :=
  update (set_fetched empty_variables) ;;
  if String.eqb content_url "" then
    st_show Warning EnterContentUrl ;; ret false
  else
    st_show Info (FetchingFrom content_url) ;;
    fetched <- try_except (ok <- fetch_body net ;; ret (Some ok))
                          (fun e => fetch_handler e ;; ret None) ;;
    match fetched with
    | Some ok => ret ok
    | None =>
        update (fun st =>
                  set_fetched
                    (fold_left ensure_initialized PREDEFINED_VARIABLES
                       (fetched_variable_values st)) st) ;;
        ret false
    end.

(** *** [generate_prompt_action] *)

Definition TEXT_BOX : string := "Text Box (for a single answer)".
Definition UPLOAD_CSV : string := "Upload CSV (for multiple answers)".

(** [f"{{{{{var_key}}}}}"] *)
Definition token (var_key : string) : string := "{{" +:+ var_key +:+ "}}".

(** Line 138: the dict comprehension over [PREDEFINED_VARIABLES]. *)
Definition all_vars_for_template (variable_values_from_fetch : gmap string pyval)
  : list (string * pyval) :=
  fold_left
    (fun d key => dict_set key (default (PStr "") (variable_values_from_fetch !! key)) d)
    PREDEFINED_VARIABLES [].

(** One round of the replacement loop (lines 157-159 and 178-180). *)
Definition replace_var (final_prompt : string) (item : string * pyval) : string :=
  let '(var_key, var_value) := item in
  if in_list var_key ALL_POSSIBLE_VARIABLES
  then PyStr.replace (token var_key) (py_str var_value) final_prompt
  else final_prompt.

(** The replacement loop over the items of a dict, in their order. *)
Definition fill (prompt_template : string) (vars : list (string * pyval)) : string :=
  fold_left replace_var vars prompt_template.

(** Lines 141-145. *)
Definition template_vars_in_use (prompt_template : string) : gset string :=
  list_to_set (Re.findall prompt_template).

Definition non_allowed_vars (prompt_template : string) : gset string :=
  template_vars_in_use prompt_template ∖ list_to_set ALL_POSSIBLE_VARIABLES.

Definition when (b : bool) (c : action unit) : action unit :=
  if b then c else ret tt.

(** The function shows its results and returns nothing; the model returns
    the [generated_prompt] column of [final_prompts_generated_data]. *)
Definition generate_prompt_action (prompt_template : string)
    (variable_values_from_fetch : gmap string pyval) (content_url : string)
    (answers_input : pyval) (answers_method : string) : action (list string) :=
  let vars := all_vars_for_template variable_values_from_fetch in
  let non_allowed := non_allowed_vars prompt_template in
  when (negb (bool_decide (non_allowed = ∅)))
       (st_show Warning (NonAllowedVariables non_allowed)) ;;
  final_prompts_generated_data <-
    (if String.eqb answers_method TEXT_BOX then
       let current_student_answer :=
         if truthy answers_input then answers_input else PStr "" in
       when (negb (truthy current_student_answer)
             && bool_decide ("student_answer" ∈ template_vars_in_use prompt_template))
            (st_show Info NoAnswerInTextBox) ;;
       let vars := dict_set "student_answer" current_student_answer vars in
       ret [fill prompt_template vars]
     else if String.eqb answers_method UPLOAD_CSV then
       match answers_input with
       | PList ((_ :: _) as answers) =>
           ret (map (fun student_answer_from_csv =>
                       let current_row_vars :=
                         dict_set "student_answer" student_answer_from_csv vars in
                       fill prompt_template current_row_vars)
                    answers)
       | _ =>
           (if negb (truthy answers_input)
            then st_show Warning NoAnswersFromCsv
            else st_show Info NoAnswersExtracted) ;;
           ret []
       end
     else
       st_show Error InvalidAnswerMethod ;; ret []) ;;
  when (match final_prompts_generated_data with [] => true | _ => false end)
       (st_show Info NoPromptsGenerated) ;;
  st_show Success ProcessingComplete ;;
  ret final_prompts_generated_data.

(** *** The CSV branch of [run_ui] (lines 385-421) *)

(** A data frame: its columns in order, each with its cells. *)
Definition dataframe : Type := list (string * list pyval).

Definition column (name : string) (df : dataframe) : option (list pyval) :=
  snd <$> List.find (fun col => String.eqb (fst col) name) df.

(** An uploaded file: its name and what [pd.read_csv] makes of it. *)
Record uploaded := {
  name : string;
  read_csv : result dataframe
}.

(** Lines 395-408: the [try] statement that loads the answers. *)
Definition load_csv (file : uploaded) : action unit :=
  try_except
    (df <- (fun st => (st, read_csv file)) ;;
     match column "Answers" df with
     | Some cells =>
         let answers := map (fun cell => PStr (py_str cell)) cells in
         update (fun st => set_csv (Some answers) (last_uploaded_filename st) st) ;;
         st_show Success (CsvRead (length answers) (name file))
     | None =>
         st_show Error CsvMissingAnswers ;;
         update (set_csv None None)
     end)
    (fun e =>
       st_show Error (CsvProcessingError e) ;;
       update (set_csv None None)).

Definition run_ui_upload_csv (uploaded_file : option uploaded) : action unit :=
  match uploaded_file with
  | Some file =>
      last <- (fun st => (st, Returned (last_uploaded_filename st))) ;;
      if negb (bool_decide (Some (name file) = last)) then
        update (fun st => set_csv (uploaded_csv_answers st) (Some (name file)) st) ;;
        load_csv file
      else
        answers <- (fun st => (st, Returned (uploaded_csv_answers st))) ;;
        match answers with
        | Some ((_ :: _) as l) =>
            st_show Info (UsingPreviousCsv (name file) (length l))
        | _ => ret tt
        end
  | None =>
      last <- (fun st => (st, Returned (last_uploaded_filename st))) ;;
      match last with
      | Some _ =>
          st_show Info CsvUploaderEmpty ;;
          update (set_csv None None)
      | None => ret tt
      end
  end ;;
  single <- (fun st => (st, Returned (single_answer st))) ;;
  when (truthy single) (update (set_single_answer (PStr ""))).

End Model.

(** ** Auxiliary notions for the statements *)

Module Overlap.

(** One of the two texts is a prefix of the other. *)
Definition comparable (a b : string) : bool :=
  PyStr.startswith a b || PyStr.startswith b a.

(** Some non-empty suffix of [t] is comparable with [w]: an occurrence of
    [w] could start inside [t]. *)
Fixpoint hits (w t : string) : bool :=
  match t with
  | EmptyString => false
  | String _ t' => comparable t w || hits w t'
  end.

(** No occurrence of [w] in any text can share a character with an
    occurrence of [t]. *)
Definition no_overlap (w t : string) : bool :=
  negb (hits w t) && negb (hits t (PyStr.drop 1 w)).

End Overlap.

(** [s.endswith(x)] *)
Definition endswith (s x : string) : bool :=
  (String.length x <=? String.length s)
  && String.eqb (PyStr.drop (String.length s - String.length x) s) x.

(** The character [c] does not occur in [s]. *)
Fixpoint lacks (c : ascii) (s : string) : bool :=
  match s with
  | EmptyString => true
  | String a s' => negb (Ascii.eqb a c) && lacks c s'
  end.

(** The shape of a whitelisted name: neither a closing brace nor a newline
    in it, and no second opening of braces behind the first character of its
    token. *)
Definition name_ok (name : string) : bool :=
  lacks "}" ("{{" +:+ name)
  && negb (Overlap.hits "{{" (PyStr.drop 1 (token name)))
  && lacks Re.newline name.

(** The [contents] objects of the screens of one category, in list order:
    the screens that are objects, carry that category and have an object as
    their contents. *)
Definition category_contents (category : string) (screens : list pyval)
  : list (list (string * pyval)) :=
  flat_map
    (fun ref =>
       match ref with
       | PDict r =>
           match dict_get r "contents" PNone with
           | PDict c => if eq_str (dict_get r "category" PNone) category then [c] else []
           | _ => []
           end
       | _ => []
       end)
    screens.

(** The [vocabularyList] lists of the vocabulary screens, in list order. *)
Definition vocabulary_lists (screens : list pyval) : list (list pyval) :=
  flat_map
    (fun c =>
       match dict_get c "vocabularyList" (PList []) with
       | PList items => [items]
       | _ => []
       end)
    (category_contents "vocabulary" screens).

(** The [reference] field of a contents object, as the extraction reads it. *)
Definition reference_of (c : list (string * pyval)) : pyval :=
  dict_get c "reference" (PStr "").

(** A session with further notices shown. *)
Definition emit (ws : list (level * notice)) (st : session) : session :=
  {| fetched_variable_values := fetched_variable_values st;
     uploaded_csv_answers := uploaded_csv_answers st;
     last_uploaded_filename := last_uploaded_filename st;
     single_answer := single_answer st;
     shown := shown st ++ ws |}.

(** The outcomes of the three network calls that count as a failed fetch. *)
Definition fetch_failed (net : response) : bool :=
  match net with
  | Json _ => false
  | _ => true
  end.

(** What the extraction of a JSON object [d] leaves in the local variables
    that take a field verbatim or join the vocabulary. *)
Definition extracted_from `{Repr} (d : list (string * pyval)) (v : locals) : Prop :=
  (task_instruction_val v = PStr ""
   \/ exists i rest,
        dict_get d "interactions" (PList []) = PList (PDict i :: rest)
        /\ task_instruction_val v = dict_get i "instruction" (PStr ""))
  /\ match dict_get d "referenceScreens" (PList []) with
     | PList screens =>
         grammar_reference_val v =
           from_option reference_of (PStr "") (last (category_contents "grammar" screens))
         /\ communication_reference_val v =
           from_option reference_of (PStr "")
             (last (category_contents "communication" screens))
         /\ vocabulary_list_str v =
           PyStr.join ", "
             (concat (map (fun items => map py_str (List.filter truthy items))
                          (vocabulary_lists screens)))
     | _ =>
         grammar_reference_val v = PStr ""
         /\ communication_reference_val v = PStr ""
         /\ vocabulary_list_str v = ""
     end.

(** ** Sample data *)

(** A stand-in for [repr]; the samples below hold strings and integers
    only, whose [str] does not go through it. *)
Definition repr_sample : Repr := fun _ => "".

Definition fresh_session : session :=
  {| fetched_variable_values := ∅;
     uploaded_csv_answers := None;
     last_uploaded_filename := None;
     single_answer := PStr "";
     shown := [] |}.

(** [{"referenceScreens": [{"category": "vocabulary",
                            "contents": {"vocabularyList": ["cat", "dog"]}}]}] *)
Definition vocabulary_document : list (string * pyval) :=
  [("referenceScreens",
    PList [PDict [("category", PStr "vocabulary");
                  ("contents", PDict [("vocabularyList", PList [PStr "cat"; PStr "dog"])])]])].


(** [{"interactions": [{"instruction": 5}]}] *)
Definition numeric_instruction_document : list (string * pyval) :=
  [("interactions", PList [PDict [("instruction", PInt 5)]])].

(** A table with a column ["Responses"] and none called ["Answers"]. *)
Definition responses_file : uploaded :=
  {| name := "answers.csv";
     read_csv := Returned [("Responses", [PStr "yes"; PStr "no"])] |}.

(** A session that has loaded one answer from a file of that name. *)
Definition session_with_answers : session :=
  set_csv (Some [PStr "old answer"]) (Some "answers.csv") fresh_session.


(** A vocabulary list that mentions the token of the task instruction. *)
Definition backward_values : gmap string pyval :=
  <["task_instruction" := PStr "Describe your day."]>
  (<["vocabulary_list" := PStr "see {{task_instruction}}"]> ∅).

(** ** The rest of [run_ui]

    One run of the script, from the values its widgets return.  The calls
    that only lay out or print ([st.title], [st.markdown], [st.table],
    [st.dataframe], the columns and expanders) are left out, as they are in
    the functions above. *)

Section Page.

Context `{Repr}.

Local Open Scope action_scope.

(** Lines 278-291: the session state a first run sets up. *)
Definition initial_session : session :=
  {| fetched_variable_values := empty_variables;
     uploaded_csv_answers := None;
     last_uploaded_filename := None;
     single_answer := PStr "";
     shown := [] |}.

(** Lines 337-347: every variable is shown in a text area and takes the text
    the area returns; [text_area var_name current_var_value] is that text,
    whatever the user and the widget make of the value it is given.  (The
    test of line 334 is on the type of the mapping, which is a dict here.) *)
Definition run_ui_variables (text_area : string -> pyval -> string) : action unit :=
  update (fun st =>
            set_fetched
              (fold_left
                 (fun m var_name =>
                    let current_var_value := default (PStr "") (m !! var_name) in
                    <[var_name := PStr (text_area var_name current_var_value)]> m)
                 PREDEFINED_VARIABLES (fetched_variable_values st))
              st).

(** Lines 371-383: the text box, which takes the place of an uploaded
    batch. *)
Definition run_ui_text_box (text : string) : action unit :=
  update (set_single_answer (PStr text)) ;;
  answers <- (fun st => (st, Returned (uploaded_csv_answers st))) ;;
  match answers with
  | Some _ => update (set_csv None None)
  | None => ret tt
  end.

(** The two options of the radio group (line 354); [true] is the upload. *)
Definition answer_method (csv : bool) : string :=
  if csv then UPLOAD_CSV else TEXT_BOX.

(** Lines 429-433: the answers handed to the generation; [None] when no
    batch is loaded. *)
Definition answers_payload (csv : bool) (st : session) : pyval :=
  if csv then
    match uploaded_csv_answers st with
    | Some answers => PList answers
    | None => PNone
    end
  else single_answer st.

(** What the widgets of one run return. *)
Record widgets := {
  prompt_template_area : string;               (* line 302 *)
  content_url_field : string;                  (* line 316 *)
  fetch_button : option response;              (* line 326: clicked, and what the
                                                  endpoint does then *)
  variable_area : string -> pyval -> string;   (* line 341 *)
  answer_radio : bool;                         (* line 363 *)
  answer_area : string;                        (* line 372 *)
  file_uploader : option uploaded;             (* line 386 *)
  generate_button : bool                       (* line 427 *)
}.

(** What a click on the generate button shows: the table of the variables,
    or the note of line 447 in its place ([None]), and the prompts. *)
Record generated := {
  variables_table : option (list (string * pyval));
  prompts : list string
}.

(** Lines 427-463. *)
Definition run_ui_generate (w : widgets) : action generated :=
  fun st =>
    let answers := answers_payload (answer_radio w) st in
    let table :=
      if bool_decide (fetched_variable_values st = ∅) then None
      else Some (all_vars_for_template (fetched_variable_values st)) in
    bind (generate_prompt_action (prompt_template_area w) (fetched_variable_values st)
            (content_url_field w) answers (answer_method (answer_radio w)))
         (fun final_prompts => ret {| variables_table := table; prompts := final_prompts |})
         st.

(** One run of [run_ui] on an existing session. *)
Definition run_ui (w : widgets) : action (option generated) :=
  match fetch_button w with
  | Some net => fetch_and_populate_variables_action (content_url_field w) net ;; ret tt
  | None => ret tt
  end ;;
  run_ui_variables (variable_area w) ;;
  (if answer_radio w
   then run_ui_upload_csv (file_uploader w)
   else run_ui_text_box (answer_area w)) ;;
  if generate_button w
  then g <- run_ui_generate w ;; ret (Some g)
  else ret None.

End Page.


(** Lines 419-420: a session without its single answer. *)
Definition without_single_answer (st : session) : session :=
  if truthy (single_answer st) then set_single_answer (PStr "") st else st.



(** A file [pd.read_csv] cannot read. *)
Definition broken_file : uploaded :=
  {| name := "broken.csv"; read_csv := Raised ParserError |}.

(** [{"interactions": "none", "referenceScreens": 3,
      "secondaryScreens": [{"contents": [{"secondaryContent": "Who?"},
                                         {"secondaryContent": ""}]},
                           {"contents": [{"secondaryContent": "Where?"}]}]}] *)
Definition misshapen_document : list (string * pyval) :=
  [("interactions", PStr "none");
   ("referenceScreens", PInt 3);
   ("secondaryScreens",
    PList [PDict [("contents", PList [PDict [("secondaryContent", PStr "Who?")];
                                      PDict [("secondaryContent", PStr "")]])];
           PDict [("contents", PList [PDict [("secondaryContent", PStr "Where?")]])]])].



Definition text_widgets (text : string) : widgets :=
  {| prompt_template_area := "Answer: {{student_answer}}";
     content_url_field := "";
     fetch_button := None;
     variable_area := fun _ _ => "";
     answer_radio := false;
     answer_area := text;
     file_uploader := None;
     generate_button := true |}.

(** ** Facts about Python strings *)

Section StringFacts.

Implicit Types s t u w p : string.

Lemma sapp_nil_l s : "" +:+ s = s.
Proof. reflexivity. Qed.

Lemma sapp_cons c s t : String c s +:+ t = String c (s +:+ t).
Proof. reflexivity. Qed.

Lemma sapp_nil_r s : s +:+ "" = s.
Proof. induction s as [|c s IH]; [reflexivity|]. rewrite sapp_cons, IH. reflexivity. Qed.

Lemma sapp_assoc s t u : (s +:+ t) +:+ u = s +:+ t +:+ u.
Proof.
  induction s as [|c s IH]; [reflexivity|].
  rewrite !sapp_cons, IH. reflexivity.
Qed.

Lemma slength_app s t : String.length (s +:+ t) = String.length s + String.length t.
Proof.
  induction s as [|c s IH]; [reflexivity|].
  rewrite sapp_cons. simpl. rewrite IH. reflexivity.
Qed.

Lemma sapp_eq_nil s t : s +:+ t = "" -> s = "" /\ t = "".
Proof. destruct s; [rewrite sapp_nil_l; auto | rewrite sapp_cons; discriminate]. Qed.

(** Two ways to cut one text: one cut point lies before the other. *)
Lemma sapp_eq_app s1 t1 s2 t2 :
  s1 +:+ t1 = s2 +:+ t2 ->
  (exists z, s2 = s1 +:+ z /\ t1 = z +:+ t2) \/
  (exists z, s1 = s2 +:+ z /\ t2 = z +:+ t1).
Proof.
  revert s2. induction s1 as [|c s1 IH]; intros s2 E.
  - left. exists s2. rewrite sapp_nil_l in E. auto.
  - destruct s2 as [|c2 s2].
    + right. exists (String c s1). rewrite sapp_nil_l in E. auto.
    + rewrite !sapp_cons in E. injection E as -> E.
      destruct (IH _ E) as [(z & -> & ->)|(z & -> & ->)]; [left|right];
        exists z; rewrite ?sapp_cons; auto.
Qed.

(** *** [startswith] *)

Lemma startswith_nil s : PyStr.startswith s "" = true.
Proof. destruct s; reflexivity. Qed.

Lemma startswith_cons a b s p :
  PyStr.startswith (String b s) (String a p) = Ascii.eqb a b && PyStr.startswith s p.
Proof. reflexivity. Qed.

Lemma startswith_app p r : PyStr.startswith (p +:+ r) p = true.
Proof.
  induction p as [|a p IH]; [apply startswith_nil|].
  rewrite sapp_cons, startswith_cons, Ascii.eqb_refl, IH. reflexivity.
Qed.

Lemma startswith_inv s p : PyStr.startswith s p = true -> exists r, s = p +:+ r.
Proof.
  revert s. induction p as [|a p IH]; intros s Hs.
  - exists s. reflexivity.
  - destruct s as [|b s]; [discriminate|].
    rewrite startswith_cons in Hs. apply andb_true_iff in Hs as [Hab Hs].
    apply Ascii.eqb_eq in Hab as ->. destruct (IH _ Hs) as [r ->].
    exists r. reflexivity.
Qed.

Lemma startswith_app_l s p r : PyStr.startswith s (p +:+ r) = true -> PyStr.startswith s p = true.
Proof.
  intros Hs. destruct (startswith_inv _ _ Hs) as [x ->].
  rewrite sapp_assoc. apply startswith_app.
Qed.

Lemma comparable_cons a b s p :
  Overlap.comparable (String b s) (String a p) = Ascii.eqb a b && Overlap.comparable s p.
Proof.
  unfold Overlap.comparable. rewrite !startswith_cons, (Ascii.eqb_sym b a).
  destruct (Ascii.eqb a b); reflexivity.
Qed.

Lemma comparable_nil_r s : Overlap.comparable s "" = true.
Proof. unfold Overlap.comparable. rewrite startswith_nil. reflexivity. Qed.

Lemma comparable_nil_l s : Overlap.comparable "" s = true.
Proof. unfold Overlap.comparable. rewrite startswith_nil. apply orb_true_r. Qed.

Lemma comparable_sym s t : Overlap.comparable s t = Overlap.comparable t s.
Proof. unfold Overlap.comparable. apply orb_comm. Qed.

(** A prefix of [a +:+ b] is a prefix of [a] or extends it. *)
Lemma startswith_app_comparable a b w :
  PyStr.startswith (a +:+ b) w = true -> Overlap.comparable a w = true.
Proof.
  revert a. induction w as [|c w IH]; intros a Hs; [apply comparable_nil_r|].
  destruct a as [|c' a]; [apply comparable_nil_l|].
  rewrite sapp_cons, startswith_cons in Hs. apply andb_true_iff in Hs as [Hc Hs].
  rewrite comparable_cons, Hc. simpl. eauto.
Qed.

Lemma comparable_app_l x a b :
  Overlap.comparable x (a +:+ b) = true -> Overlap.comparable x a = true.
Proof.
  unfold Overlap.comparable at 1. intros [Hs|Hs]%orb_true_iff.
  - unfold Overlap.comparable. erewrite startswith_app_l by eassumption. reflexivity.
  - rewrite comparable_sym. eapply startswith_app_comparable; eassumption.
Qed.

(** A prefix of [a +:+ b] longer than [a] is [a] and then a non-empty
    prefix of [b]. *)
Lemma startswith_app_long a b w :
  PyStr.startswith (a +:+ b) w = true -> String.length a < String.length w ->
  exists w2, w = a +:+ w2 /\ w2 <> "" /\ PyStr.startswith b w2 = true.
Proof.
  revert w. induction a as [|c a IH]; intros w Hs Hlen.
  - exists w. rewrite sapp_nil_l in Hs. repeat split; auto.
    intros ->. simpl in Hlen. lia.
  - destruct w as [|c' w]; [simpl in Hlen; lia|].
    rewrite sapp_cons, startswith_cons in Hs. apply andb_true_iff in Hs as [Hc Hs].
    apply Ascii.eqb_eq in Hc as ->.
    destruct (IH w Hs) as (w2 & -> & Hne & Hw2); [simpl in Hlen; lia|].
    exists w2. auto.
Qed.

(** *** [occurs] *)

Lemma occurs_unfold sub s :
  PyStr.occurs sub s =
  PyStr.startswith s sub
  || match s with EmptyString => false | String _ s' => PyStr.occurs sub s' end.
Proof. destruct s; reflexivity. Qed.

Lemma occurs_intro sub pre post : PyStr.occurs sub (pre +:+ sub +:+ post) = true.
Proof.
  induction pre as [|c pre IH].
  - rewrite sapp_nil_l, occurs_unfold, startswith_app. reflexivity.
  - rewrite sapp_cons, occurs_unfold, IH. apply orb_true_r.
Qed.

Lemma occurs_inv sub s :
  PyStr.occurs sub s = true -> exists pre post, s = pre +:+ sub +:+ post.
Proof.
  induction s as [|c s IH]; rewrite occurs_unfold; intros Ho.
  - rewrite orb_false_r in Ho. destruct (startswith_inv _ _ Ho) as [r ->].
    exists "", r. reflexivity.
  - apply orb_true_iff in Ho as [Ho|Ho].
    + destruct (startswith_inv _ _ Ho) as [r ->]. exists "", r. reflexivity.
    + destruct (IH Ho) as (pre & post & ->). exists (String c pre), post. reflexivity.
Qed.

Lemma occurs_trans a b s :
  PyStr.occurs a b = true -> PyStr.occurs b s = true -> PyStr.occurs a s = true.
Proof.
  intros (p1 & q1 & ->)%occurs_inv (p2 & q2 & ->)%occurs_inv.
  rewrite <- (sapp_assoc p2), !sapp_assoc, <- (sapp_assoc p2). apply occurs_intro.
Qed.

Lemma occurs_app_r sub pre s : PyStr.occurs sub s = true -> PyStr.occurs sub (pre +:+ s) = true.
Proof.
  intros (p & q & ->)%occurs_inv. rewrite <- sapp_assoc. apply occurs_intro.
Qed.

Lemma occurs_false_suffix sub y s :
  PyStr.occurs sub (y +:+ s) = false -> PyStr.occurs sub s = false.
Proof.
  intros Hf. destruct (PyStr.occurs sub s) eqn:E; [|reflexivity].
  rewrite (occurs_app_r _ y _ E) in Hf. discriminate.
Qed.

Lemma occurs_false_startswith sub s :
  PyStr.occurs sub s = false -> PyStr.startswith s sub = false.
Proof. rewrite occurs_unfold. intros [? _]%orb_false_iff. assumption. Qed.

End StringFacts.

(** ** Facts about [replace] *)

Section ReplaceFacts.

Implicit Types s t w new pre post : string.

Lemma replace_from_skip w new k c s :
  PyStr.replace_from w new (S k) (String c s) = PyStr.replace_from w new k s.
Proof. reflexivity. Qed.

Lemma replace_from_scan w new c s :
  PyStr.replace_from w new 0 (String c s) =
  if PyStr.startswith (String c s) w
  then new +:+ PyStr.replace_from w new (String.length w - 1) s
  else String c (PyStr.replace_from w new 0 s).
Proof. reflexivity. Qed.

Lemma replace_nonempty w new s : w <> "" -> PyStr.replace w new s = PyStr.replace_from w new 0 s.
Proof. destruct w; [congruence | reflexivity]. Qed.

(** Without an occurrence of [w] nothing is replaced. *)
Lemma replace_absent w new s :
  w <> "" -> PyStr.occurs w s = false -> PyStr.replace w new s = s.
Proof.
  intros Hw. rewrite (replace_nonempty _ _ _ Hw).
  induction s as [|c s IH]; [reflexivity|].
  rewrite occurs_unfold. intros [Hs Ho]%orb_false_iff.
  rewrite replace_from_scan, Hs, (IH Ho). reflexivity.
Qed.

Lemma replace_from_inserts w new post pre skip :
  w <> "" -> skip <= String.length pre ->
  PyStr.occurs new (PyStr.replace_from w new skip (pre +:+ w +:+ post)) = true.
Proof.
  intros Hw. revert skip. induction pre as [|c pre IH]; intros skip Hskip.
  - simpl in Hskip. assert (skip = 0) as -> by lia.
    rewrite sapp_nil_l. destruct w as [|a w]; [congruence|].
    rewrite sapp_cons, replace_from_scan, <- sapp_cons, startswith_app.
    apply (occurs_intro new "").
  - rewrite sapp_cons. destruct skip as [|k].
    + rewrite replace_from_scan.
      destruct (PyStr.startswith _ w); [apply (occurs_intro new "")|].
      rewrite occurs_unfold, (IH 0) by lia. apply orb_true_r.
    + rewrite replace_from_skip. apply IH. simpl in Hskip. lia.
Qed.

(** Where [w] occurs, the replacement text is put in as it is. *)
Lemma replace_inserts w new s :
  w <> "" -> PyStr.occurs w s = true -> PyStr.occurs new (PyStr.replace w new s) = true.
Proof.
  intros Hw (pre & post & ->)%occurs_inv.
  rewrite (replace_nonempty _ _ _ Hw). apply replace_from_inserts; [assumption | lia].
Qed.

(** *** Occurrences the replacement cannot touch *)

Lemma hits_cons w c t :
  Overlap.hits w (String c t) = Overlap.comparable (String c t) w || Overlap.hits w t.
Proof. reflexivity. Qed.

Lemma hits_intro w y t :
  t <> "" -> Overlap.comparable t w = true -> Overlap.hits w (y +:+ t) = true.
Proof.
  intros Ht Hc. induction y as [|c y IH].
  - rewrite sapp_nil_l. destruct t; [congruence|]. rewrite hits_cons, Hc. reflexivity.
  - rewrite sapp_cons, hits_cons, IH. apply orb_true_r.
Qed.

Lemma hits_false_intro w t :
  (forall y t', t = y +:+ t' -> t' <> "" -> Overlap.comparable t' w = false) ->
  Overlap.hits w t = false.
Proof.
  induction t as [|c t IH]; intros Hall; [reflexivity|].
  rewrite hits_cons, (Hall "" (String c t)), IH; [reflexivity| |reflexivity|discriminate].
  intros y t' -> Ht'. apply (Hall (String c y)); [reflexivity | assumption].
Qed.

(** The scan walks through a text that [w] cannot start in. *)
Lemma replace_from_through w new t post :
  Overlap.hits w t = false ->
  PyStr.replace_from w new 0 (t +:+ post) = t +:+ PyStr.replace_from w new 0 post.
Proof.
  induction t as [|c t IH]; intros Hh; [reflexivity|].
  rewrite hits_cons in Hh. apply orb_false_iff in Hh as [Hc Hh].
  rewrite sapp_cons, replace_from_scan.
  destruct (PyStr.startswith (String c (t +:+ post)) w) eqn:Hs.
  - rewrite <- sapp_cons in Hs. apply startswith_app_comparable in Hs. congruence.
  - rewrite (IH Hh). reflexivity.
Qed.

(** The scan reaches the start of [t] when no occurrence of [w] can begin
    before [t] and end inside it. *)
Lemma replace_from_upto w new t post pre skip :
  Overlap.hits t (PyStr.drop 1 w) = false -> skip <= String.length pre ->
  exists out,
    PyStr.replace_from w new skip (pre +:+ t +:+ post) =
    out +:+ PyStr.replace_from w new 0 (t +:+ post).
Proof.
  intros Hh. revert skip. induction pre as [|c pre IH]; intros skip Hskip.
  - simpl in Hskip. assert (skip = 0) as -> by lia. exists "". reflexivity.
  - rewrite sapp_cons. destruct skip as [|k].
    + rewrite replace_from_scan.
      destruct (PyStr.startswith (String c (pre +:+ t +:+ post)) w) eqn:Hs.
      * destruct (le_lt_dec (String.length w - 1) (String.length pre)) as [Hle|Hlt].
        -- destruct (IH _ Hle) as [out ->]. exists (new +:+ out). symmetry. apply sapp_assoc.
        -- rewrite <- sapp_cons in Hs.
           apply startswith_app_long in Hs as (w2 & -> & Hne & Hw2); [|simpl; lia].
           apply startswith_app_comparable in Hw2. rewrite comparable_sym in Hw2.
           rewrite sapp_cons in Hh. simpl in Hh.
           rewrite (hits_intro _ _ _ Hne Hw2) in Hh. discriminate.
      * destruct (IH 0) as [out ->]; [lia|]. exists (String c out). reflexivity.
    + rewrite replace_from_skip. apply IH. simpl in Hskip. lia.
Qed.

(** An occurrence of [t] survives the replacement of a [w] that cannot
    overlap it. *)
Lemma replace_keeps w new t s :
  w <> "" -> Overlap.no_overlap w t = true ->
  PyStr.occurs t s = true -> PyStr.occurs t (PyStr.replace w new s) = true.
Proof.
  intros Hw [Hwt Htw]%andb_true_iff (pre & post & ->)%occurs_inv.
  apply negb_true_iff in Hwt, Htw.
  rewrite (replace_nonempty _ _ _ Hw).
  destruct (replace_from_upto w new t post pre 0 Htw) as [out ->]; [lia|].
  rewrite (replace_from_through _ _ _ _ Hwt). apply occurs_intro.
Qed.

End ReplaceFacts.

(** ** Facts about tokens *)

Section TokenFacts.

Context `{Repr}.
Implicit Types s t u name : string.

Lemma sdrop_app y x : PyStr.drop (String.length y) (y +:+ x) = x.
Proof. induction y as [|c y IH]; [destruct x; reflexivity | exact IH]. Qed.

Lemma endswith_intro y x : endswith (y +:+ x) x = true.
Proof.
  unfold endswith. rewrite slength_app.
  replace (String.length y + String.length x - String.length x) with (String.length y) by lia.
  rewrite sdrop_app, String.eqb_refl, andb_true_r. apply Nat.leb_le. lia.
Qed.

Lemma token_split name : token name = ("{{" +:+ name) +:+ "}}".
Proof. reflexivity. Qed.

Lemma token_nonempty name : token name <> "".
Proof. discriminate. Qed.

Lemma in_list_In x l : in_list x l = true <-> In x l.
Proof.
  unfold in_list. rewrite existsb_exists. split.
  - intros (y & Hy & ->%String.eqb_eq). assumption.
  - intros Hx. exists x. split; [assumption | apply String.eqb_refl].
Qed.

(** *** What the lazy group captures *)

Lemma match_inner_cons c s :
  Re.match_inner (String c s) =
  if PyStr.startswith (String c s) "}}" then Some ""
  else if Ascii.eqb c Re.newline then None
  else option_map (String c) (Re.match_inner s).
Proof. reflexivity. Qed.

Lemma match_inner_some s u :
  Re.match_inner s = Some u ->
  (exists rest, s = u +:+ "}}" +:+ rest)
  /\ PyStr.occurs "}}" (u +:+ "}") = false
  /\ lacks Re.newline u = true.
Proof.
  revert u. induction s as [|c s IH]; intros u; [discriminate|].
  rewrite match_inner_cons.
  destruct (PyStr.startswith (String c s) "}}") eqn:Hs.
  - intros [= <-]. destruct (startswith_inv _ _ Hs) as [rest ->].
    split; [exists rest; reflexivity | split; reflexivity].
  - destruct (Ascii.eqb c Re.newline) eqn:Hc; [discriminate|].
    destruct (Re.match_inner s) as [u'|]; [|discriminate].
    simpl. intros [= <-]. destruct (IH u' eq_refl) as ((rest & ->) & Hlazy & Hnl).
    split; [exists rest; reflexivity|]. split.
    + rewrite sapp_cons, occurs_unfold, Hlazy, orb_false_r.
      rewrite startswith_cons in Hs |- *.
      destruct (Ascii.eqb "}" c); [|reflexivity].
      destruct u' as [|a u']; exact Hs.
    + simpl. rewrite Hc, Hnl. reflexivity.
Qed.

Lemma match_inner_total u rest :
  lacks Re.newline u = true -> is_Some (Re.match_inner (u +:+ "}}" +:+ rest)).
Proof.
  induction u as [|c u IH]; intros Hnl.
  - exists "". reflexivity.
  - simpl in Hnl. apply andb_true_iff in Hnl as [Hc Hnl]. apply negb_true_iff in Hc.
    rewrite sapp_cons, match_inner_cons.
    destruct (PyStr.startswith _ "}}"); [eauto|].
    rewrite Hc. destruct (IH Hnl) as [u' ->]. simpl. eauto.
Qed.

Lemma findall_from_cons_skip k c s :
  Re.findall_from (S k) (String c s) = Re.findall_from k s.
Proof. reflexivity. Qed.

Lemma findall_from_scan c s :
  Re.findall_from 0 (String c s) =
  if PyStr.startswith (String c s) "{{" then
    match Re.match_inner (PyStr.drop 2 (String c s)) with
    | Some u => u :: Re.findall_from (String.length u + 3) s
    | None => Re.findall_from 0 s
    end
  else Re.findall_from 0 s.
Proof. reflexivity. Qed.

(** Every captured name stands in the text between its braces, and is the
    shortest possible. *)
Lemma findall_from_in skip s u :
  In u (Re.findall_from skip s) ->
  PyStr.occurs (token u) s = true /\ PyStr.occurs "}}" (u +:+ "}") = false.
Proof.
  revert skip. induction s as [|c s IH]; intros skip Hin; [destruct Hin|].
  assert (Hrec : forall k, In u (Re.findall_from k s) ->
            PyStr.occurs (token u) (String c s) = true
            /\ PyStr.occurs "}}" (u +:+ "}") = false).
  { intros k Hk. destruct (IH _ Hk) as [Ho Hl]. split; [|assumption].
    apply (occurs_app_r _ (String c "")). assumption. }
  destruct skip as [|k]; [|eapply Hrec; eassumption].
  rewrite findall_from_scan in Hin.
  destruct (PyStr.startswith (String c s) "{{") eqn:Hs; [|eapply Hrec; eassumption].
  destruct (Re.match_inner _) as [u0|] eqn:Hm; [|eapply Hrec; eassumption].
  destruct Hin as [->|Hin]; [|eapply Hrec; eassumption].
  destruct (startswith_inv _ _ Hs) as [r Hr]. rewrite Hr in Hm |- *.
  change (PyStr.drop 2 ("{{" +:+ r)) with r in Hm.
  destruct (match_inner_some _ _ Hm) as ((rest & ->) & Hlazy & _).
  split; [|assumption].
  replace ("{{" +:+ u +:+ "}}" +:+ rest) with ("" +:+ token u +:+ rest).
  - apply occurs_intro.
  - rewrite sapp_nil_l. unfold token. rewrite !sapp_assoc. reflexivity.
Qed.

(** A token in the text makes the scan find something. *)
Lemma findall_from_nonempty name pre post skip :
  lacks Re.newline name = true -> skip <= String.length pre ->
  Re.findall_from skip (pre +:+ token name +:+ post) <> [].
Proof.
  intros Hnl. revert skip. induction pre as [|c pre IH]; intros skip Hskip.
  - simpl in Hskip. assert (skip = 0) as -> by lia.
    rewrite sapp_nil_l. unfold token. rewrite !sapp_assoc.
    change ("{{" +:+ name +:+ "}}" +:+ post)
      with (String "{" (String "{" (name +:+ "}}" +:+ post))).
    rewrite findall_from_scan.
    change (PyStr.startswith (String "{" (String "{" (name +:+ "}}" +:+ post))) "{{")
      with (PyStr.startswith (name +:+ "}}" +:+ post) "").
    rewrite startswith_nil.
    change (PyStr.drop 2 (String "{" (String "{" (name +:+ "}}" +:+ post))))
      with (name +:+ "}}" +:+ post).
    destruct (match_inner_total name post Hnl) as [u' ->]. discriminate.
  - rewrite sapp_cons. destruct skip as [|k].
    + rewrite findall_from_scan.
      destruct (PyStr.startswith _ "{{"); [|apply IH; lia].
      destruct (Re.match_inner _); [discriminate | apply IH; lia].
    + rewrite findall_from_cons_skip. apply IH. simpl in Hskip. lia.
Qed.

End TokenFacts.

(** ** Tokens the replacement of a whitelisted token cannot touch *)

Section TokenOverlap.

Context `{Repr}.
Implicit Types s t u name m x : string.

Lemma lacks_cons c a s : lacks c (String a s) = negb (Ascii.eqb a c) && lacks c s.
Proof. reflexivity. Qed.

(** Two texts that end in their first ["}}"] and are comparable are equal. *)
Lemma comparable_closing m x :
  lacks "}" m = true -> PyStr.occurs "}}" (x +:+ "}") = false ->
  Overlap.comparable (m +:+ "}}") (x +:+ "}}") = true -> m = x.
Proof.
  revert x. induction m as [|a m IH]; intros x Hm Hx Hc.
  - destruct x as [|c x]; [reflexivity|]. exfalso.
    rewrite sapp_nil_l, sapp_cons, comparable_cons in Hc.
    apply andb_true_iff in Hc as [->%Ascii.eqb_eq Hc].
    rewrite sapp_cons, occurs_unfold in Hx. apply orb_false_iff in Hx as [Hx _].
    rewrite startswith_cons in Hx. simpl in Hx.
    destruct x as [|c2 x]; [discriminate Hx|].
    rewrite sapp_cons in Hc, Hx. rewrite comparable_cons in Hc.
    apply andb_true_iff in Hc as [->%Ascii.eqb_eq _]. discriminate Hx.
  - rewrite lacks_cons in Hm. apply andb_true_iff in Hm as [Ha Hm].
    apply negb_true_iff in Ha.
    destruct x as [|c x].
    + exfalso. rewrite sapp_nil_l, sapp_cons, comparable_cons in Hc.
      apply andb_true_iff in Hc as [Hc _]. rewrite Ascii.eqb_sym in Hc. congruence.
    + rewrite !sapp_cons, comparable_cons in Hc.
      apply andb_true_iff in Hc as [->%Ascii.eqb_eq Hc].
      f_equal. apply IH; [assumption| |assumption].
      rewrite sapp_cons in Hx. apply (occurs_false_suffix _ (String a "")). exact Hx.
Qed.

(** No occurrence of [m +:+ "}}"] starts inside [p +:+ "}}"], unless the
    former is a suffix of the latter. *)
Lemma hits_closing m p :
  m <> "" -> lacks "}" m = true -> PyStr.occurs "}}" (p +:+ "}") = false ->
  (forall y, p <> y +:+ m) ->
  Overlap.hits (m +:+ "}}") (p +:+ "}}") = false.
Proof.
  intros Hne Hm Hp Hsuf. apply hits_false_intro. intros y t' E Ht'.
  destruct (Overlap.comparable t' (m +:+ "}}")) eqn:Hc; [exfalso|reflexivity].
  symmetry in E. destruct (sapp_eq_app _ _ _ _ E) as [(z & -> & ->)|(z & -> & E')].
  - rewrite comparable_sym in Hc. apply comparable_closing in Hc; [|assumption|].
    + subst z. eapply Hsuf. reflexivity.
    + rewrite sapp_assoc in Hp. eapply occurs_false_suffix. exact Hp.
  - destruct m as [|a m]; [congruence|].
    rewrite lacks_cons in Hm. apply andb_true_iff in Hm as [Ha _].
    apply negb_true_iff in Ha.
    destruct z as [|z1 [|z2 [|z3 z]]].
    + rewrite sapp_nil_l in E'. subst t'.
      rewrite sapp_cons, comparable_cons, Ha in Hc. discriminate.
    + rewrite sapp_cons, sapp_nil_l in E'. injection E' as <- <-.
      rewrite sapp_cons, comparable_cons, Ha in Hc. discriminate.
    + rewrite !sapp_cons, sapp_nil_l in E'. injection E' as <- <- <-. congruence.
    + rewrite !sapp_cons in E'. discriminate E'.
Qed.

Lemma hits_prefix a b x : Overlap.hits (a +:+ b) x = true -> Overlap.hits a x = true.
Proof.
  induction x as [|c x IH]; [discriminate|].
  rewrite !hits_cons. intros [Hc|Hh]%orb_true_iff.
  - rewrite (comparable_app_l _ _ _ Hc). reflexivity.
  - rewrite (IH Hh). apply orb_true_r.
Qed.

Lemma whitelist_ok name : In name ALL_POSSIBLE_VARIABLES -> name_ok name = true.
Proof.
  assert (Hall : forallb name_ok ALL_POSSIBLE_VARIABLES = true) by (vm_compute; reflexivity).
  rewrite forallb_forall in Hall. apply Hall.
Qed.

(** Replacing a whitelisted token leaves alone every token the scan can
    report that does not end in that whitelisted token. *)
Lemma token_no_overlap name u :
  In name ALL_POSSIBLE_VARIABLES ->
  PyStr.occurs "}}" (u +:+ "}") = false ->
  endswith (token u) (token name) = false ->
  Overlap.no_overlap (token name) (token u) = true.
Proof.
  intros Hin Hu Hend. apply whitelist_ok in Hin.
  unfold name_ok in Hin.
  apply andb_true_iff in Hin as [[Hbr Hhit]%andb_true_iff _].
  apply negb_true_iff in Hhit.
  unfold Overlap.no_overlap. apply andb_true_iff. split; apply negb_true_iff.
  - rewrite !token_split. apply hits_closing; [discriminate|assumption| |].
    + rewrite !sapp_cons, sapp_nil_l, occurs_unfold, (occurs_unfold _ (String _ (u +:+ _))).
      rewrite Hu. reflexivity.
    + intros y E. rewrite (token_split u), E, sapp_assoc, <- token_split in Hend.
      rewrite endswith_intro in Hend. discriminate.
  - destruct (Overlap.hits (token u) _) eqn:E; [|reflexivity].
    change (token u) with ("{{" +:+ (u +:+ "}}")) in E.
    apply hits_prefix in E. congruence.
Qed.


(** *** The replacement loop *)

Lemma fill_nil s : fill s [] = s.
Proof. reflexivity. Qed.

Lemma fill_cons s item vars : fill s (item :: vars) = fill (replace_var s item) vars.
Proof. reflexivity. Qed.

Lemma fill_app s vars1 vars2 : fill s (vars1 ++ vars2) = fill (fill s vars1) vars2.
Proof. apply fold_left_app. Qed.

(** A text that no whitelisted token of the dict can overlap goes through
    the loop untouched. *)
Lemma fill_keeps t s vars :
  (forall key, In key (map fst vars) -> In key ALL_POSSIBLE_VARIABLES ->
               Overlap.no_overlap (token key) t = true) ->
  PyStr.occurs t s = true -> PyStr.occurs t (fill s vars) = true.
Proof.
  revert s. induction vars as [|[key value] vars IH]; intros s Hno Ho; [assumption|].
  rewrite fill_cons. apply IH.
  - intros k Hk. apply Hno. right. assumption.
  - unfold replace_var. destruct (in_list key ALL_POSSIBLE_VARIABLES) eqn:Hin; [|assumption].
    apply replace_keeps; [apply token_nonempty| |assumption].
    apply Hno; [left; reflexivity | apply in_list_In; assumption].
Qed.

(** Without any whitelisted token in the text the loop changes nothing. *)
Lemma fill_absent s vars :
  (forall name, In name ALL_POSSIBLE_VARIABLES -> PyStr.occurs (token name) s = false) ->
  fill s vars = s.
Proof.
  intros Habs. induction vars as [|[key value] vars IH]; [reflexivity|].
  rewrite fill_cons. unfold replace_var.
  destruct (in_list key ALL_POSSIBLE_VARIABLES) eqn:Hin; [|assumption].
  rewrite replace_absent; [assumption | apply token_nonempty|].
  apply Habs, in_list_In. assumption.
Qed.

End TokenOverlap.

(** ** Facts about the extraction *)

Section ExtractionFacts.

Context `{Repr}.

Lemma bind_returned {A B} (c : action A) (k : A -> action B) st st' a :
  c st = (st', Returned a) -> bind c k st = k a st'.
Proof. unfold bind. intros ->. reflexivity. Qed.

Lemma bind_raised {A B} (c : action A) (k : A -> action B) st st' e :
  c st = (st', Raised e) -> bind c k st = (st', Raised e).
Proof. unfold bind. intros ->. reflexivity. Qed.

Lemma show_emit l n st : show l n st = emit [(l, n)] st.
Proof. reflexivity. Qed.

Lemma emit_emit ws1 ws2 st : emit ws2 (emit ws1 st) = emit (ws1 ++ ws2) st.
Proof. unfold emit. simpl. rewrite <- List.app_assoc. reflexivity. Qed.

Lemma emit_nil st : emit [] st = st.
Proof. destruct st. unfold emit. simpl. rewrite List.app_nil_r. reflexivity. Qed.

Lemma set_fetched_emit m ws st : set_fetched m (emit ws st) = emit ws (set_fetched m st).
Proof. reflexivity. Qed.

(** The first block only reads [interactions]: it leaves the four other
    variables alone, and [task_instruction] is either untouched or the
    [instruction] field of the first interaction. *)
Lemma extract_interactions_run interactions v st :
  exists ws v',
    extract_interactions interactions v st = (emit ws st, Returned v')
    /\ vocabulary_list_str v' = vocabulary_list_str v
    /\ grammar_reference_val v' = grammar_reference_val v
    /\ communication_reference_val v' = communication_reference_val v
    /\ guiding_questions_val v' = guiding_questions_val v
    /\ (task_instruction_val v' = task_instruction_val v
        \/ exists i rest, interactions = PList (PDict i :: rest)
                          /\ task_instruction_val v' = dict_get i "instruction" (PStr "")).
Proof.
  destruct interactions as [| | | | |[|interaction rest]|];
    try (exists [(Warning, NoInteractions)], v; repeat split; auto; fail).
  destruct interaction as [| | | | | |i];
    try (exists [], v; rewrite emit_nil; repeat split; auto; fail).
  eexists [], _. rewrite emit_nil. split; [reflexivity|].
  repeat split; eauto.
Qed.

Lemma category_contents_cons category ref screens :
  category_contents category (ref :: screens) =
  category_contents category [ref] ++ category_contents category screens.
Proof. unfold category_contents. simpl. rewrite List.app_nil_r. reflexivity. Qed.

Lemma vocabulary_lists_cons ref screens :
  vocabulary_lists (ref :: screens) = vocabulary_lists [ref] ++ vocabulary_lists screens.
Proof.
  unfold vocabulary_lists. rewrite category_contents_cons, flat_map_app. reflexivity.
Qed.

Lemma eq_str_true v lit : eq_str v lit = true -> v = PStr lit.
Proof. destruct v; try discriminate. simpl. intros ->%String.eqb_eq. reflexivity. Qed.

(** The items one or several screens add to [vocabulary_items_list]. *)
Lemma reference_screen_step_spec vs g c ref :
  reference_screen_step (vs, g, c) ref =
  (vs ++ concat (map (fun items => map py_str (List.filter truthy items))
                     (vocabulary_lists [ref])),
   from_option reference_of g (last (category_contents "grammar" [ref])),
   from_option reference_of c (last (category_contents "communication" [ref]))).
Proof.
  unfold reference_screen_step, vocabulary_lists, category_contents.
  destruct ref as [| | | | | |r]; simpl; rewrite ?List.app_nil_r; try reflexivity.
  destruct (dict_get r "contents" PNone) as [| | | | | |cts];
    simpl; rewrite ?List.app_nil_r; try reflexivity.
  destruct (eq_str (dict_get r "category" PNone) "vocabulary") eqn:Hv.
  - apply eq_str_true in Hv. rewrite Hv. simpl.
    destruct (dict_get cts "vocabularyList" (PList [])); simpl;
      rewrite ?List.app_nil_r; reflexivity.
  - destruct (eq_str (dict_get r "category" PNone) "grammar") eqn:Hg.
    + apply eq_str_true in Hg. rewrite Hg. simpl. rewrite List.app_nil_r. reflexivity.
    + destruct (eq_str (dict_get r "category" PNone) "communication") eqn:Hm;
        simpl; rewrite List.app_nil_r; reflexivity.
Qed.

Lemma from_option_last_app {A B} (f : A -> B) (d : B) (l1 l2 : list A) :
  from_option f d (last (l1 ++ l2)) = from_option f (from_option f d (last l1)) (last l2).
Proof. rewrite last_app. destruct (last l2); reflexivity. Qed.

Lemma fold_left_step {A B} (f : A -> B -> A) (x : B) (l : list B) (a : A) :
  fold_left f (x :: l) a = fold_left f l (f a x).
Proof. reflexivity. Qed.

(** The loop over the reference screens, as a whole. *)
Lemma reference_fold screens vs g c :
  fold_left reference_screen_step screens (vs, g, c) =
  (vs ++ concat (map (fun items => map py_str (List.filter truthy items))
                     (vocabulary_lists screens)),
   from_option reference_of g (last (category_contents "grammar" screens)),
   from_option reference_of c (last (category_contents "communication" screens))).
Proof.
  revert vs g c. induction screens as [|ref screens IH]; intros vs g c.
  - simpl. rewrite List.app_nil_r. reflexivity.
  - rewrite fold_left_step, reference_screen_step_spec, IH.
    rewrite (vocabulary_lists_cons ref screens), map_app, concat_app, <- List.app_assoc.
    rewrite (category_contents_cons "grammar" ref screens).
    rewrite (category_contents_cons "communication" ref screens).
    rewrite !from_option_last_app. reflexivity.
Qed.

Lemma extract_reference_screens_run reference_screens v st :
  exists ws v',
    extract_reference_screens reference_screens v st = (emit ws st, Returned v')
    /\ task_instruction_val v' = task_instruction_val v
    /\ guiding_questions_val v' = guiding_questions_val v
    /\ can_do_statements_val v' = can_do_statements_val v
    /\ match reference_screens with
       | PList screens =>
           grammar_reference_val v' =
             from_option reference_of (grammar_reference_val v)
               (last (category_contents "grammar" screens))
           /\ communication_reference_val v' =
             from_option reference_of (communication_reference_val v)
               (last (category_contents "communication" screens))
           /\ vocabulary_list_str v' =
             match concat (map (fun items => map py_str (List.filter truthy items))
                               (vocabulary_lists screens)) with
             | [] => vocabulary_list_str v
             | collected => PyStr.join ", " collected
             end
       | _ =>
           grammar_reference_val v' = grammar_reference_val v
           /\ communication_reference_val v' = communication_reference_val v
           /\ vocabulary_list_str v' = vocabulary_list_str v
       end.
Proof.
  destruct reference_screens as [| | | | |screens|];
    try (exists [(Warning, NoReferenceScreens)], v; repeat split; auto; fail).
  unfold extract_reference_screens. rewrite reference_fold. simpl.
  eexists [], _. rewrite emit_nil. split; [reflexivity|]. simpl.
  repeat split; try reflexivity.
  destruct (concat _); reflexivity.
Qed.

Lemma extract_secondary_screens_run secondary_screens v st :
  exists ws v',
    extract_secondary_screens secondary_screens v st = (emit ws st, Returned v')
    /\ task_instruction_val v' = task_instruction_val v
    /\ vocabulary_list_str v' = vocabulary_list_str v
    /\ grammar_reference_val v' = grammar_reference_val v
    /\ communication_reference_val v' = communication_reference_val v
    /\ can_do_statements_val v' = can_do_statements_val v.
Proof.
  destruct secondary_screens as [| | | | |screens|];
    try (exists [(Warning, NoSecondaryScreens)], v; repeat split; auto; fail).
  eexists [], _. rewrite emit_nil. split; [reflexivity|]. repeat split.
Qed.

(** On a JSON object the body of the [try] statement returns [True]; it
    shows notices, and stores six values that depend on the document
    only. *)
Lemma fetch_body_dict d st :
  exists ws v,
    fetch_body (Json (PDict d)) st =
      (emit ws (set_fetched (populate v (fetched_variable_values st)) st), Returned true)
    /\ extracted_from d v.
Proof.
  destruct (extract_interactions_run (dict_get d "interactions" (PList []))
              initial_locals st)
    as (ws1 & v1 & E1 & Hvoc1 & Hg1 & Hc1 & _ & Ht1).
  destruct (extract_reference_screens_run (dict_get d "referenceScreens" (PList []))
              v1 (emit ws1 st))
    as (ws2 & v2 & E2 & Ht2 & _ & _ & Href).
  destruct (extract_secondary_screens_run (dict_get d "secondaryScreens" (PList []))
              v2 (emit ws2 (emit ws1 st)))
    as (ws3 & v3 & E3 & Ht3 & Hvoc3 & Hg3 & Hc3 & _).
  exists (ws1 ++ ws2 ++ ws3 ++ [(Success, FetchedAndProcessed)]), v3.
  split.
  - unfold fetch_body, bind, http_get_json, attr_get, ret.
    rewrite E1, E2, E3. unfold update, st_show. rewrite show_emit.
    simpl fetched_variable_values.
    rewrite !set_fetched_emit, !emit_emit. reflexivity.
  - unfold extracted_from. rewrite Ht3, Ht2, Hg3, Hc3, Hvoc3. split.
    + destruct Ht1 as [->|Ht1]; [left; reflexivity | right; exact Ht1].
    + destruct (dict_get d "referenceScreens" (PList [])); rewrite <- ?Hg1, <- ?Hc1;
        try (destruct Href as (-> & -> & ->); rewrite ?Hg1, ?Hc1, ?Hvoc1; auto; fail).
      destruct Href as (-> & -> & ->). rewrite Hg1, Hc1, Hvoc1. simpl.
      repeat split. destruct (concat _); reflexivity.
Qed.

Lemma fetch_body_raises net st :
  (forall d, net <> Json (PDict d)) -> exists e, fetch_body net st = (st, Raised e).
Proof.
  intros Hnet. destruct net as [e| |e|activity_data]; try (eexists; reflexivity).
  destruct activity_data; try (eexists; reflexivity).
  exfalso. eapply Hnet. reflexivity.
Qed.

Lemma fetch_handler_run e st :
  exists n, fetch_handler e st = (emit [(Error, n)] st, Returned tt).
Proof.
  unfold fetch_handler.
  destruct (is_RequestException e); [eexists; reflexivity|].
  destruct (is_JSONDecodeError e); [eexists; reflexivity|].
  destruct (is_KeyError e); eexists; reflexivity.
Qed.

(** The function around its [try] statement. *)
Lemma fetch_run content_url net st :
  content_url <> "" ->
  match fetch_body net
          (emit [(Info, FetchingFrom content_url)] (set_fetched empty_variables st)) with
  | (st', Returned ok) =>
      fetch_and_populate_variables_action content_url net st = (st', Returned ok)
  | (st', Raised e) =>
      exists n,
        fetch_and_populate_variables_action content_url net st =
        (set_fetched
           (fold_left ensure_initialized PREDEFINED_VARIABLES (fetched_variable_values st'))
           (emit [(Error, n)] st'),
         Returned false)
  end.
Proof.
  intros Hurl. apply String.eqb_neq in Hurl.
  unfold fetch_and_populate_variables_action.
  rewrite (bind_returned _ _ st (set_fetched empty_variables st) tt) by reflexivity.
  rewrite Hurl.
  rewrite (bind_returned _ _ _
             (emit [(Info, FetchingFrom content_url)] (set_fetched empty_variables st)) tt)
    by reflexivity.
  destruct (fetch_body net _) as [st' [ok|e]] eqn:Eb.
  - rewrite (bind_returned _ _ _ st' (Some ok)); [reflexivity|].
    unfold try_except. rewrite (bind_returned _ _ _ st' ok Eb). reflexivity.
  - destruct (fetch_handler_run e st') as [n En]. exists n.
    rewrite (bind_returned _ _ _ (emit [(Error, n)] st') None).
    + rewrite (bind_returned _ _ _ _ tt) by reflexivity. reflexivity.
    + unfold try_except. rewrite (bind_raised _ _ _ st' e Eb).
      rewrite (bind_returned _ _ _ _ tt En). reflexivity.
Qed.

Lemma fetch_without_url net st :
  fetch_and_populate_variables_action "" net st =
  (emit [(Warning, EnterContentUrl)] (set_fetched empty_variables st), Returned false).
Proof. reflexivity. Qed.

Lemma empty_variables_lookup var :
  In var PREDEFINED_VARIABLES -> empty_variables !! var = Some (PStr "").
Proof.
  intros Hvar. simpl in Hvar.
  repeat (destruct Hvar as [<-|Hvar]; [vm_compute; reflexivity|]). destruct Hvar.
Qed.

Lemma ensure_initialized_kept m vars :
  (forall var, In var vars -> m !! var = Some (PStr "")) ->
  fold_left ensure_initialized vars m = m.
Proof.
  induction vars as [|var vars IH]; intros Hm; [reflexivity|].
  rewrite fold_left_step. unfold ensure_initialized at 2.
  rewrite (Hm var) by (left; reflexivity).
  apply IH. intros var' Hvar'. apply Hm. right. assumption.
Qed.

Lemma ensure_initialized_empty :
  fold_left ensure_initialized PREDEFINED_VARIABLES empty_variables = empty_variables.
Proof. apply ensure_initialized_kept, empty_variables_lookup. Qed.

Lemma populate_lookup v m :
  populate v m !! "task_instruction" = Some (task_instruction_val v)
  /\ populate v m !! "vocabulary_list" = Some (PStr (vocabulary_list_str v))
  /\ populate v m !! "grammar_reference" = Some (grammar_reference_val v)
  /\ populate v m !! "communication_reference" = Some (communication_reference_val v)
  /\ populate v m !! "guiding_questions" = Some (PStr (guiding_questions_val v))
  /\ populate v m !! "can_do_statements" = Some (PStr (can_do_statements_val v)).
Proof. unfold populate. repeat split; by simplify_map_eq. Qed.

Lemma dom_empty_variables :
  dom empty_variables = list_to_set PREDEFINED_VARIABLES.
Proof. unfold empty_variables. rewrite dom_list_to_map_L. reflexivity. Qed.

Lemma dom_populate v :
  dom (populate v empty_variables) = list_to_set PREDEFINED_VARIABLES.
Proof.
  unfold populate. rewrite !dom_insert_L, dom_empty_variables.
  unfold PREDEFINED_VARIABLES. simpl. set_solver.
Qed.

Lemma fetched_after_dict content_url d st :
  content_url <> "" ->
  exists v,
    fetched_variable_values
      (fst (fetch_and_populate_variables_action content_url (Json (PDict d)) st))
    = populate v empty_variables
    /\ extracted_from d v.
Proof.
  intros Hurl. pose proof (fetch_run content_url (Json (PDict d)) st Hurl) as Hrun.
  destruct (fetch_body_dict d
              (emit [(Info, FetchingFrom content_url)] (set_fetched empty_variables st)))
    as (ws & v & E & Hv).
  rewrite E in Hrun. rewrite Hrun. exists v. split; [reflexivity | assumption].
Qed.

(** The variables after a fetch: all empty, or populated from a JSON
    object. *)
Lemma fetched_after content_url net st :
  fetched_variable_values
    (fst (fetch_and_populate_variables_action content_url net st)) = empty_variables
  \/ exists d v,
       content_url <> "" /\ net = Json (PDict d)
       /\ fetched_variable_values
            (fst (fetch_and_populate_variables_action content_url net st))
          = populate v empty_variables
       /\ extracted_from d v.
Proof.
  destruct (String.eqb_spec content_url "") as [->|Hurl].
  { left. rewrite fetch_without_url. reflexivity. }
  assert (Hcase : (exists d, net = Json (PDict d)) \/ (forall d, net <> Json (PDict d))).
  { destruct net as [| | |[]]; try (right; discriminate). left. eauto. }
  destruct Hcase as [[d ->]|Hnet].
  - right. destruct (fetched_after_dict content_url d st Hurl) as (v & E & Hv).
    exists d, v. auto.
  - left. pose proof (fetch_run content_url net st Hurl) as Hrun.
    destruct (fetch_body_raises net
              (emit [(Info, FetchingFrom content_url)] (set_fetched empty_variables st))
              Hnet) as [e He].
    rewrite He in Hrun. destruct Hrun as [n ->]. apply ensure_initialized_empty.
Qed.

Lemma category_contents_in category screens c :
  In c (category_contents category screens) ->
  exists r, In (PDict r) screens
            /\ dict_get r "contents" PNone = PDict c
            /\ eq_str (dict_get r "category" PNone) category = true.
Proof.
  unfold category_contents. rewrite in_flat_map. intros (ref & Hin & Hc).
  destruct ref as [| | | | | |r]; try destruct Hc.
  exists r. destruct (dict_get r "contents" PNone) as [| | | | | |c']; try destruct Hc.
  destruct (eq_str _ category); [|destruct Hc].
  destruct Hc as [->|[]]. auto.
Qed.

Lemma dict_get_cases d key default :
  dict_get d key default = default \/ dict_lookup key d = Some (dict_get d key default).
Proof. unfold dict_get. destruct (dict_lookup key d); auto. Qed.

End ExtractionFacts.

(** ** Properties of the extraction *)

Section ExtractionProperties.

Context `{Repr}.

(** C2.  A fetch that ends in a transport failure, an error status or a
    body that is not JSON as a whole: the function returns [False] instead
    of raising, the six variables are all the empty string, and the failure
    is shown as an error behind the notice of the fetch; the rest of the
    session is as it was. *)
Theorem failed_fetch_resets_variables content_url net st :
  content_url <> "" -> fetch_failed net = true ->
  exists n,
    fetch_and_populate_variables_action content_url net st =
    ({| fetched_variable_values := empty_variables;
        uploaded_csv_answers := uploaded_csv_answers st;
        last_uploaded_filename := last_uploaded_filename st;
        single_answer := single_answer st;
        shown := shown st ++ [(Info, FetchingFrom content_url); (Error, n)] |},
     Returned false)
    /\ forall var, In var PREDEFINED_VARIABLES -> empty_variables !! var = Some (PStr "").
Proof.
  intros Hurl Hfail.
  pose proof (fetch_run content_url net st Hurl) as Hrun.
  destruct (fetch_body_raises net
              (emit [(Info, FetchingFrom content_url)] (set_fetched empty_variables st)))
    as [e He].
  { intros d ->. discriminate Hfail. }
  rewrite He in Hrun. destruct Hrun as [n ->]. exists n. split.
  - simpl fetched_variable_values. rewrite ensure_initialized_empty.
    unfold set_fetched, emit. simpl. rewrite <- List.app_assoc. reflexivity.
  - apply empty_variables_lookup.
Qed.

(** C4, amended.  After the fetch, whatever it got, the mapping has exactly
    the six names as its keys; [vocabulary_list], [guiding_questions] and
    [can_do_statements] are strings; [task_instruction] is the empty string
    or the value under ["instruction"] in the first interaction, and
    [grammar_reference] and [communication_reference] are the empty string
    or the value under ["reference"] in the contents of a screen, each as
    the document has it. *)
Theorem extracted_mapping_shape content_url net st :
  let m := fetched_variable_values
             (fst (fetch_and_populate_variables_action content_url net st)) in
  dom m = list_to_set PREDEFINED_VARIABLES
  /\ (exists s1 s2 s3,
        m !! "vocabulary_list" = Some (PStr s1)
        /\ m !! "guiding_questions" = Some (PStr s2)
        /\ m !! "can_do_statements" = Some (PStr s3))
  /\ (exists v,
        m !! "task_instruction" = Some v
        /\ (v = PStr ""
            \/ exists d i rest,
                 net = Json (PDict d)
                 /\ dict_get d "interactions" (PList []) = PList (PDict i :: rest)
                 /\ dict_lookup "instruction" i = Some v))
  /\ (forall key category,
        (key = "grammar_reference" /\ category = "grammar")
        \/ (key = "communication_reference" /\ category = "communication") ->
        exists v,
          m !! key = Some v
          /\ (v = PStr ""
              \/ exists d screens r c,
                   net = Json (PDict d)
                   /\ dict_get d "referenceScreens" (PList []) = PList screens
                   /\ In (PDict r) screens
                   /\ eq_str (dict_get r "category" PNone) category = true
                   /\ dict_get r "contents" PNone = PDict c
                   /\ dict_lookup "reference" c = Some v)).
Proof.
  intros m. subst m.
  destruct (fetched_after content_url net st) as [->|(d & v & Hurl & -> & -> & Ht & Hr)].
  { split; [apply dom_empty_variables|].
    split; [exists "", "", ""; repeat split; apply empty_variables_lookup; simpl; auto 10|].
    split; [exists (PStr ""); split; [apply empty_variables_lookup; simpl; auto | auto]|].
    intros key category [[-> ->]|[-> ->]]; exists (PStr "");
      (split; [apply empty_variables_lookup; simpl; auto 10 | auto]). }
  destruct (populate_lookup v empty_variables) as (Lt & Lv & Lg & Lc & Lq & Ls).
  split; [apply dom_populate|].
  split; [eauto 10|].
  split.
  { exists (task_instruction_val v). split; [assumption|].
    destruct Ht as [->|(i & rest & Hi & ->)]; [auto|].
    destruct (dict_get_cases i "instruction" (PStr "")) as [->|Hl]; [auto|].
    right. exists d, i, rest. auto. }
  assert (Hprov : forall category screens,
            dict_get d "referenceScreens" (PList []) = PList screens ->
            let v' := from_option reference_of (PStr "")
                        (last (category_contents category screens)) in
            v' = PStr ""
            \/ exists d' screens' r c,
                 Json (PDict d) = Json (PDict d')
                 /\ dict_get d' "referenceScreens" (PList []) = PList screens'
                 /\ In (PDict r) screens'
                 /\ eq_str (dict_get r "category" PNone) category = true
                 /\ dict_get r "contents" PNone = PDict c
                 /\ dict_lookup "reference" c = Some v').
  { intros category screens Hs v'. subst v'.
    destruct (last (category_contents category screens)) as [c|] eqn:Hlast; [|auto].
    simpl. apply last_Some_elem_of, list_elem_of_In, category_contents_in in Hlast.
    destruct Hlast as (r & Hin & Hc & Hcat).
    destruct (dict_get_cases c "reference" (PStr "")) as [E|Hl]; [auto|].
    right. exists d, screens, r, c. auto 10. }
  intros key category Hkey.
  destruct (dict_get d "referenceScreens" (PList [])) as [| | | | |screens|] eqn:Hs;
    destruct Hr as (Hg & Hc & _);
    destruct Hkey as [[-> ->]|[-> ->]]; eexists; (split; [eassumption|]);
    rewrite ?Hg, ?Hc; try (left; reflexivity); apply Hprov; reflexivity.
Qed.


(** C8.  [vocabulary_list] is the [", "]-joined list of the stringified
    truthy items of the [vocabularyList] of every vocabulary screen (an
    object of category ["vocabulary"] whose contents is an object with a list
    under that key), in list order; the empty string when there is no such
    item. *)
Theorem vocabulary_list_joined content_url d screens st :
  content_url <> "" ->
  dict_get d "referenceScreens" (PList []) = PList screens ->
  fetched_variable_values
    (fst (fetch_and_populate_variables_action content_url (Json (PDict d)) st))
    !! "vocabulary_list"
  = Some (PStr (PyStr.join ", "
                  (concat (map (fun items => map py_str (List.filter truthy items))
                               (vocabulary_lists screens))))).
Proof.
  intros Hurl Hs.
  destruct (fetched_after_dict content_url d st Hurl) as (v & -> & _ & Hr).
  rewrite Hs in Hr. destruct Hr as (_ & _ & Hv).
  destruct (populate_lookup v empty_variables) as (_ & Lv & _).
  rewrite Lv, Hv. reflexivity.
Qed.

End ExtractionProperties.

(** A timed-out request. *)
Lemma failed_fetch_resets_variables_witness :
  exists n,
    fetch_and_populate_variables_action (H := repr_sample) "https://example.org/activity"
      (GetRaises Timeout) fresh_session =
    ({| fetched_variable_values := empty_variables;
        uploaded_csv_answers := None;
        last_uploaded_filename := None;
        single_answer := PStr "";
        shown := [(Info, FetchingFrom "https://example.org/activity"); (Error, n)] |},
     Returned false)
    /\ forall var, In var PREDEFINED_VARIABLES -> empty_variables !! var = Some (PStr "").
Proof.
  apply (failed_fetch_resets_variables (H := repr_sample) "https://example.org/activity"
           (GetRaises Timeout) fresh_session); [discriminate | reflexivity].
Defined.

(** A numeric [instruction] is stored as the number it is. *)
Lemma extraction_stores_non_string :
  let m := fetched_variable_values
             (fst (fetch_and_populate_variables_action (H := repr_sample) "u"
                     (Json (PDict numeric_instruction_document)) fresh_session)) in
  m !! "task_instruction" = Some (PInt 5) /\ isinstance_str (PInt 5) = false.
Proof. split; vm_compute; reflexivity. Qed.


(** The example of the vocabulary list ["cat", "dog"]. *)
Lemma vocabulary_list_joined_witness :
  fetched_variable_values
    (fst (fetch_and_populate_variables_action (H := repr_sample) "u"
            (Json (PDict vocabulary_document)) fresh_session))
    !! "vocabulary_list"
  = Some (PStr "cat, dog").
Proof.
  apply (vocabulary_list_joined (H := repr_sample) "u" vocabulary_document
           [PDict [("category", PStr "vocabulary");
                   ("contents", PDict [("vocabularyList", PList [PStr "cat"; PStr "dog"])])]]
           fresh_session); [discriminate | reflexivity].
Defined.

(** ** Facts about the generation *)

Section GenerationFacts.

Context `{Repr}.

Lemma when_show (b : bool) l n st :
  when b (st_show l n) st = (emit (if b then [(l, n)] else []) st, Returned tt).
Proof. destruct b; simpl; [reflexivity | rewrite emit_nil; reflexivity]. Qed.



(** The answer goes last into the dict of a row. *)
Lemma row_vars m a :
  dict_set "student_answer" a (all_vars_for_template m) =
  all_vars_for_template m ++ [("student_answer", a)].
Proof. reflexivity. Qed.

Lemma fill_row prompt_template m a :
  fill prompt_template (dict_set "student_answer" a (all_vars_for_template m)) =
  PyStr.replace (token "student_answer") (py_str a)
    (fill prompt_template (all_vars_for_template m)).
Proof. rewrite row_vars, fill_app. reflexivity. Qed.

(** The notices of a generation: the warning about the names that are not
    allowed comes first, when there are any. *)
Lemma generate_text_box prompt_template m content_url answers_input st :
  exists ws,
    generate_prompt_action prompt_template m content_url answers_input TEXT_BOX st =
    (emit ((if negb (bool_decide (non_allowed_vars prompt_template = ∅))
            then [(Warning, NonAllowedVariables (non_allowed_vars prompt_template))]
            else []) ++ ws) st,
     Returned
       [fill prompt_template
          (dict_set "student_answer"
             (if truthy answers_input then answers_input else PStr "")
             (all_vars_for_template m))]).
Proof.
  unfold generate_prompt_action.
  erewrite bind_returned by apply when_show.
  change (String.eqb TEXT_BOX TEXT_BOX) with true. cbv iota.
  erewrite bind_returned;
    [|erewrite bind_returned by apply when_show; reflexivity].
  erewrite bind_returned by (apply (when_show false)).
  erewrite bind_returned by reflexivity.
  unfold ret. rewrite show_emit, !emit_emit. eexists. reflexivity.
Qed.

Lemma generate_upload_csv prompt_template m content_url answers st :
  exists ws,
    generate_prompt_action prompt_template m content_url (PList answers) UPLOAD_CSV st =
    (emit ((if negb (bool_decide (non_allowed_vars prompt_template = ∅))
            then [(Warning, NonAllowedVariables (non_allowed_vars prompt_template))]
            else []) ++ ws) st,
     Returned
       (map (fun a => fill prompt_template
                        (dict_set "student_answer" a (all_vars_for_template m)))
            answers)).
Proof.
  unfold generate_prompt_action.
  erewrite bind_returned by apply when_show.
  change (String.eqb UPLOAD_CSV TEXT_BOX) with false.
  change (String.eqb UPLOAD_CSV UPLOAD_CSV) with true. cbv iota.
  destruct answers as [|a answers].
  - erewrite bind_returned;
      [|erewrite bind_returned by (simpl; reflexivity); reflexivity].
    erewrite bind_returned by (apply (when_show true)).
    erewrite bind_returned by reflexivity.
    unfold ret. rewrite !show_emit, !emit_emit. eexists. reflexivity.
  - erewrite bind_returned by reflexivity.
    erewrite bind_returned by (apply (when_show false)).
    erewrite bind_returned by reflexivity.
    unfold ret. rewrite show_emit, !emit_emit. eexists. reflexivity.
Qed.

(** Whatever the inputs, the function returns, and every prompt it made is
    the template filled from a dict of the whitelisted names. *)
Lemma generate_run prompt_template m content_url answers_input answers_method st :
  exists ws prompts,
    generate_prompt_action prompt_template m content_url answers_input answers_method st =
    (emit ((if negb (bool_decide (non_allowed_vars prompt_template = ∅))
            then [(Warning, NonAllowedVariables (non_allowed_vars prompt_template))]
            else []) ++ ws) st,
     Returned prompts)
    /\ forall p, In p prompts ->
         exists a, p = fill prompt_template
                         (dict_set "student_answer" a (all_vars_for_template m)).
Proof.
  destruct (String.eqb_spec answers_method TEXT_BOX) as [->|Htext].
  { destruct (generate_text_box prompt_template m content_url answers_input st) as [ws E].
    eexists ws, _. split; [exact E|]. intros p [<-|[]]. eauto. }
  destruct (String.eqb_spec answers_method UPLOAD_CSV) as [->|Hcsv].
  { assert (Hcase : (exists answers, answers_input = PList answers)
                    \/ (forall answers, answers_input <> PList answers)).
    { destruct answers_input; try (right; discriminate). left. eauto. }
    destruct Hcase as [[answers ->]|Hother].
    - destruct (generate_upload_csv prompt_template m content_url answers st) as [ws E].
      eexists ws, _. split; [exact E|]. intros p (a & <- & _)%in_map_iff. eauto.
    - unfold generate_prompt_action.
      erewrite bind_returned by apply when_show.
      change (String.eqb UPLOAD_CSV TEXT_BOX) with false.
      change (String.eqb UPLOAD_CSV UPLOAD_CSV) with true. cbv iota.
      assert (Hb : exists w,
                 (match answers_input with
                  | PList ((_ :: _) as answers) =>
                      ret (map (fun a => fill prompt_template
                                  (dict_set "student_answer" a (all_vars_for_template m)))
                               answers)
                  | _ =>
                      bind (if negb (truthy answers_input)
                            then st_show Warning NoAnswersFromCsv
                            else st_show Info NoAnswersExtracted)
                           (fun _ => ret [])
                  end)
                   (emit (if negb (bool_decide (non_allowed_vars prompt_template = ∅))
                          then [(Warning,
                                 NonAllowedVariables (non_allowed_vars prompt_template))]
                          else []) st)
                 = (emit [w] (emit (if negb (bool_decide
                                               (non_allowed_vars prompt_template = ∅))
                          then [(Warning,
                                 NonAllowedVariables (non_allowed_vars prompt_template))]
                          else []) st), Returned [])).
      { destruct answers_input; try (destruct (negb _); eexists; reflexivity).
        exfalso. eapply Hother. reflexivity. }
      destruct Hb as [w Hb].
      erewrite bind_returned by exact Hb.
      erewrite bind_returned by (apply (when_show true)).
      erewrite bind_returned by reflexivity.
      unfold ret. rewrite !show_emit, !emit_emit. eexists _, []. split; [reflexivity|].
      intros p []. }
  unfold generate_prompt_action.
  erewrite bind_returned by apply when_show.
  apply String.eqb_neq in Htext, Hcsv. rewrite Htext, Hcsv.
  erewrite bind_returned by reflexivity.
  erewrite bind_returned by (apply (when_show true)).
  erewrite bind_returned by reflexivity.
  unfold ret. rewrite !show_emit, !emit_emit. eexists _, []. split; [reflexivity|].
  intros p [].
Qed.

(** A name the scan reports and the whitelist lacks is among the names
    the warning lists. *)
Lemma non_allowed_intro prompt_template u :
  In u (Re.findall prompt_template) -> in_list u ALL_POSSIBLE_VARIABLES = false ->
  u ∈ non_allowed_vars prompt_template.
Proof.
  intros Hin Hout. unfold non_allowed_vars, template_vars_in_use.
  apply elem_of_difference. split.
  - apply elem_of_list_to_set, list_elem_of_In. assumption.
  - rewrite elem_of_list_to_set, list_elem_of_In, <- in_list_In. congruence.
Qed.

(** A text without a match of the pattern has no whitelisted token. *)
Lemma findall_nil_absent prompt_template name :
  Re.findall prompt_template = [] -> In name ALL_POSSIBLE_VARIABLES ->
  PyStr.occurs (token name) prompt_template = false.
Proof.
  intros Hnil Hname.
  destruct (PyStr.occurs (token name) prompt_template) eqn:Ho; [exfalso|reflexivity].
  apply occurs_inv in Ho as (pre & post & ->).
  apply whitelist_ok in Hname. unfold name_ok in Hname.
  apply andb_true_iff in Hname as [_ Hnl].
  eapply (findall_from_nonempty name pre post 0 Hnl); [lia | exact Hnil].
Qed.

End GenerationFacts.

(** ** Properties of the generation *)

Section GenerationProperties.

Context `{Repr}.




(** C3.  A batch of answers yields one prompt per answer, in the order of
    the answers; each is the template filled from the dict of the row, and
    the rows differ in the answer only: the six content variables come from
    the fetched values in every row. *)
Theorem batch_generation_in_order prompt_template m content_url answers st :
  let vars := all_vars_for_template m in
  let row a := dict_set "student_answer" a vars in
  exists prompts,
    snd (generate_prompt_action prompt_template m content_url (PList answers)
           UPLOAD_CSV st) = Returned prompts
    /\ prompts = map (fun a => fill prompt_template (row a)) answers
    /\ length prompts = length answers
    /\ (forall i, nth_error prompts i =
                  option_map (fun a => fill prompt_template (row a)) (nth_error answers i))
    /\ (forall a, map fst (row a) = ALL_POSSIBLE_VARIABLES)
    /\ (forall a key, In key PREDEFINED_VARIABLES ->
          dict_lookup key (row a) = Some (default (PStr "") (m !! key))).
Proof.
  intros vars row.
  destruct (generate_upload_csv prompt_template m content_url answers st) as [ws E].
  eexists. rewrite E. split; [reflexivity|]. split; [reflexivity|].
  split; [apply List.length_map|]. split; [intros i; apply nth_error_map|].
  split; [reflexivity|].
  intros a key Hkey. simpl in Hkey.
  repeat (destruct Hkey as [<-|Hkey]; [reflexivity|]). destruct Hkey.
Qed.

(** C6, amended.  A name the scan finds in the template and the whitelist
    lacks is listed in the warning, which is the first notice of the
    generation; the generation goes on and returns its prompts, one in
    single mode and one per answer in batch mode; and unless the token ends
    in a whitelisted token, it stands in every prompt as it stood in the
    template. *)
Theorem unknown_token_warned_and_kept
    prompt_template m content_url answers_input answers_method st u :
  In u (Re.findall prompt_template) ->
  in_list u ALL_POSSIBLE_VARIABLES = false ->
  exists ws prompts,
    generate_prompt_action prompt_template m content_url answers_input answers_method st
    = (emit ((Warning, NonAllowedVariables (non_allowed_vars prompt_template)) :: ws) st,
       Returned prompts)
    /\ u ∈ non_allowed_vars prompt_template
    /\ (answers_method = TEXT_BOX -> length prompts = 1)
    /\ (forall answers, answers_method = UPLOAD_CSV -> answers_input = PList answers ->
                        length prompts = length answers)
    /\ (forallb (fun name => negb (endswith (token u) (token name)))
                ALL_POSSIBLE_VARIABLES = true ->
        forall p, In p prompts -> PyStr.occurs (token u) p = true).
Proof.
  intros Hfound Hunknown.
  pose proof (non_allowed_intro _ _ Hfound Hunknown) as Hin.
  destruct (generate_run prompt_template m content_url answers_input answers_method st)
    as (ws & prompts & E & Hprompts).
  assert (Hne : bool_decide (non_allowed_vars prompt_template = ∅) = false).
  { apply bool_decide_eq_false. intros Hempty. rewrite Hempty in Hin.
    exact (not_elem_of_empty u Hin). }
  rewrite Hne in E. simpl in E.
  exists ws, prompts. split; [exact E|]. split; [exact Hin|].
  split; [|split].
  - intros ->.
    destruct (generate_text_box prompt_template m content_url answers_input st) as [ws' E'].
    rewrite E in E'. injection E' as _ ->. reflexivity.
  - intros answers -> ->.
    destruct (generate_upload_csv prompt_template m content_url answers st) as [ws' E'].
    rewrite E in E'. injection E' as _ ->. apply List.length_map.
  - intros Hsuffix p Hp. destruct (Hprompts p Hp) as [a ->].
    destruct (findall_from_in _ _ _ Hfound) as [Hocc Hlazy].
    apply fill_keeps; [|exact Hocc].
    intros key _ Hkey. apply token_no_overlap; [assumption..|].
    rewrite forallb_forall in Hsuffix. apply negb_true_iff, Hsuffix. assumption.
Qed.

(** C9.  A template in which the scan finds no token comes back as it is,
    whatever the variables and the answers. *)
Theorem template_without_token_unchanged prompt_template :
  Re.findall prompt_template = [] ->
  (forall vars, fill prompt_template vars = prompt_template)
  /\ (forall m content_url answer st,
        snd (generate_prompt_action prompt_template m content_url answer TEXT_BOX st)
        = Returned [prompt_template])
  /\ (forall m content_url answers st,
        snd (generate_prompt_action prompt_template m content_url (PList answers)
               UPLOAD_CSV st)
        = Returned (map (fun _ => prompt_template) answers)).
Proof.
  intros Hnil.
  assert (Hfill : forall vars, fill prompt_template vars = prompt_template).
  { intros vars. apply fill_absent. intros name. apply findall_nil_absent. exact Hnil. }
  split; [exact Hfill|]. split.
  - intros m content_url answer st.
    destruct (generate_text_box prompt_template m content_url answer st) as [ws ->].
    cbn [snd]. rewrite Hfill. reflexivity.
  - intros m content_url answers st.
    destruct (generate_upload_csv prompt_template m content_url answers st) as [ws ->].
    cbn [snd]. f_equal. apply map_ext. intros a. apply Hfill.
Qed.

(** C10.  In both modes the token of student_answer is replaced last, in
    the text the six content variables have been put into; the answer goes
    in as it is, so that whatever stands in the answer, a whitelisted token
    too, stands in the prompt wherever the answer was put. *)
Theorem student_answer_replaced_last prompt_template m content_url (answer : string) st :
  let filled := fill prompt_template (all_vars_for_template m) in
  snd (generate_prompt_action prompt_template m content_url (PStr answer) TEXT_BOX st)
  = Returned [PyStr.replace (token "student_answer") answer filled]
  /\ (forall answers,
        snd (generate_prompt_action prompt_template m content_url (PList answers)
               UPLOAD_CSV st)
        = Returned (map (fun a => PyStr.replace (token "student_answer") (py_str a) filled)
                        answers))
  /\ (PyStr.occurs (token "student_answer") filled = true ->
      forall t, PyStr.occurs t answer = true ->
                PyStr.occurs t (PyStr.replace (token "student_answer") answer filled) = true).
Proof.
  intros filled. split; [|split].
  - destruct (generate_text_box prompt_template m content_url (PStr answer) st) as [ws ->].
    cbn [snd]. rewrite fill_row. fold filled.
    destruct answer; reflexivity.
  - intros answers.
    destruct (generate_upload_csv prompt_template m content_url answers st) as [ws ->].
    cbn [snd]. f_equal; try (apply map_ext; intros a; apply fill_row).
  - intros Hthere t Ht. eapply occurs_trans; [exact Ht|].
    apply replace_inserts; [apply token_nonempty | exact Hthere].
Qed.

End GenerationProperties.

(** ** The upload of a batch of answers *)

Section UploadProperties.

Context `{Repr}.


(** The [try] statement on a table without the column. *)
Lemma load_csv_missing file df st :
  read_csv file = Returned df -> column "Answers" df = None ->
  load_csv file st = (set_csv None None (emit [(Error, CsvMissingAnswers)] st), Returned tt).
Proof.
  intros Hread Hcol. unfold load_csv, try_except.
  erewrite bind_returned by (rewrite Hread; reflexivity).
  rewrite Hcol. reflexivity.
Qed.


End UploadProperties.

(** ** Examples and counterexamples *)



(** Two answers, two prompts, in their order. *)
Lemma batch_generation_in_order_witness :
  snd (generate_prompt_action (H := repr_sample) "Hello {{student_answer}}!" ∅ ""
         (PList [PStr "world"; PStr "there"]) UPLOAD_CSV fresh_session)
  = Returned ["Hello world!"; "Hello there!"].
Proof.
  destruct (batch_generation_in_order (H := repr_sample) "Hello {{student_answer}}!" ∅ ""
              [PStr "world"; PStr "there"] fresh_session) as (prompts & -> & -> & _).
  vm_compute. reflexivity.
Defined.

(** The keys after a fetch of the document with the numeric instruction. *)
Lemma extracted_mapping_shape_witness :
  dom (fetched_variable_values
         (fst (fetch_and_populate_variables_action (H := repr_sample) "u"
                 (Json (PDict numeric_instruction_document)) fresh_session)))
  = list_to_set PREDEFINED_VARIABLES.
Proof.
  apply (proj1 (extracted_mapping_shape (H := repr_sample) "u"
                  (Json (PDict numeric_instruction_document)) fresh_session)).
Defined.

(** C6 as stated fails: the scan reports the token {{a{{task_instruction}},
    which is not whitelisted, and the replacement of {{task_instruction}}
    takes its end away. *)
Lemma unknown_token_can_be_cut :
  In "a{{task_instruction" (Re.findall "{{a{{task_instruction}}")
  /\ in_list "a{{task_instruction" ALL_POSSIBLE_VARIABLES = false
  /\ snd (generate_prompt_action (H := repr_sample) "{{a{{task_instruction}}"
            backward_values "" (PStr "") TEXT_BOX fresh_session)
     = Returned ["{{aDescribe your day."]
  /\ PyStr.occurs (token "a{{task_instruction") "{{aDescribe your day." = false.
Proof.
  split; [left; reflexivity|]. repeat split; vm_compute; reflexivity.
Qed.

(** The template of the example with {{unknown_var}}. *)
Lemma unknown_token_warned_and_kept_witness :
  exists ws prompts,
    generate_prompt_action (H := repr_sample) "Dear {{unknown_var}}: {{student_answer}}" ∅ ""
      (PStr "hello") TEXT_BOX fresh_session
    = (emit ((Warning,
              NonAllowedVariables
                (non_allowed_vars "Dear {{unknown_var}}: {{student_answer}}")) :: ws)
         fresh_session,
       Returned prompts)
    /\ forall p, In p prompts -> PyStr.occurs "{{unknown_var}}" p = true.
Proof.
  destruct (unknown_token_warned_and_kept (H := repr_sample)
              "Dear {{unknown_var}}: {{student_answer}}" ∅ "" (PStr "hello") TEXT_BOX
              fresh_session "unknown_var") as (ws & prompts & E & _ & _ & _ & Hkept).
  - simpl. auto.
  - reflexivity.
  - exists ws, prompts. split; [exact E|]. apply Hkept. reflexivity.
Defined.



(** A template without braces. *)
Lemma template_without_token_unchanged_witness :
  fill (H := repr_sample) "Write about your day."
    (dict_set "student_answer" (PStr "I got up at six.")
       (all_vars_for_template backward_values))
  = "Write about your day.".
Proof.
  apply (proj1 (template_without_token_unchanged (H := repr_sample)
                  "Write about your day." eq_refl)).
Defined.

(** An answer that quotes the token of the task instruction. *)
Lemma student_answer_replaced_last_witness :
  PyStr.occurs "{{task_instruction}}"
    (PyStr.replace (token "student_answer") "I did {{task_instruction}} today"
       (fill (H := repr_sample) "{{task_instruction}} Answer: {{student_answer}}"
          (all_vars_for_template backward_values))) = true.
Proof.
  apply (proj2 (proj2 (student_answer_replaced_last (H := repr_sample)
                         "{{task_instruction}} Answer: {{student_answer}}" backward_values ""
                         "I did {{task_instruction}} today" fresh_session)));
    vm_compute; reflexivity.
Defined.

(** ** More on the extraction *)

Section ExtractionRuns.

Context `{Repr}.

Lemma emit_inj ws ws' st v v' :
  (emit ws st, @Returned locals v) = (emit ws' st, Returned v') -> ws = ws' /\ v = v'.
Proof.
  intros [= Hs ->]. split; [|reflexivity]. eapply List.app_inv_head. exact Hs.
Qed.

(** Each block shows the same notices and leaves the same values in every
    session. *)
Lemma extract_interactions_uniform interactions v :
  exists ws v', forall st,
    extract_interactions interactions v st = (emit ws st, Returned v').
Proof.
  destruct interactions as [| | | | |[|interaction rest]|];
    try (exists [(Warning, NoInteractions)], v; reflexivity).
  destruct interaction; eexists [], _; intros st; rewrite emit_nil; reflexivity.
Qed.

Lemma extract_reference_screens_uniform reference_screens v :
  exists ws v', forall st,
    extract_reference_screens reference_screens v st = (emit ws st, Returned v').
Proof.
  destruct reference_screens as [| | | | |screens|];
    try (exists [(Warning, NoReferenceScreens)], v; reflexivity).
  unfold extract_reference_screens. rewrite reference_fold.
  eexists [], _. intros st. rewrite emit_nil. reflexivity.
Qed.

Lemma extract_secondary_screens_uniform secondary_screens v :
  exists ws v', forall st,
    extract_secondary_screens secondary_screens v st = (emit ws st, Returned v').
Proof.
  destruct secondary_screens as [| | | | |screens|];
    try (exists [(Warning, NoSecondaryScreens)], v; reflexivity).
  eexists [], _. intros st. rewrite emit_nil. reflexivity.
Qed.

(** The three blocks in a row, and the fetch of a JSON object as a whole. *)
Lemma fetch_dict_steps content_url d :
  content_url <> "" ->
  exists ws1 v1 ws2 v2 ws3 v3,
    (forall st, extract_interactions (dict_get d "interactions" (PList []))
                  initial_locals st = (emit ws1 st, Returned v1))
    /\ (forall st, extract_reference_screens (dict_get d "referenceScreens" (PList []))
                     v1 st = (emit ws2 st, Returned v2))
    /\ (forall st, extract_secondary_screens (dict_get d "secondaryScreens" (PList []))
                     v2 st = (emit ws3 st, Returned v3))
    /\ (forall st,
          fetch_and_populate_variables_action content_url (Json (PDict d)) st =
          (emit ((Info, FetchingFrom content_url)
                   :: ws1 ++ ws2 ++ ws3 ++ [(Success, FetchedAndProcessed)])
             (set_fetched (populate v3 empty_variables) st),
           Returned true)).
Proof.
  intros Hurl.
  destruct (extract_interactions_uniform (dict_get d "interactions" (PList []))
              initial_locals) as (ws1 & v1 & E1).
  destruct (extract_reference_screens_uniform (dict_get d "referenceScreens" (PList []))
              v1) as (ws2 & v2 & E2).
  destruct (extract_secondary_screens_uniform (dict_get d "secondaryScreens" (PList []))
              v2) as (ws3 & v3 & E3).
  exists ws1, v1, ws2, v2, ws3, v3. repeat split; try assumption.
  intros st. pose proof (fetch_run content_url (Json (PDict d)) st Hurl) as Hrun.
  assert (Hbody : forall st0,
            fetch_body (Json (PDict d)) st0 =
            (emit (ws1 ++ ws2 ++ ws3 ++ [(Success, FetchedAndProcessed)])
               (set_fetched (populate v3 (fetched_variable_values st0)) st0),
             Returned true)).
  { intros st0. unfold fetch_body, bind, http_get_json, attr_get, ret.
    rewrite E1, E2, E3. unfold update, st_show. rewrite show_emit.
    simpl fetched_variable_values.
    rewrite !set_fetched_emit, !emit_emit. reflexivity. }
  rewrite Hbody in Hrun. rewrite Hrun.
  simpl fetched_variable_values. rewrite set_fetched_emit, emit_emit. reflexivity.
Qed.

Lemma fetch_body_raises_uniform net :
  (forall d, net <> Json (PDict d)) ->
  exists e, forall st, fetch_body net st = (st, Raised e).
Proof.
  intros Hnet. destruct net as [e| |e|activity_data]; try (eexists; reflexivity).
  destruct activity_data; try (eexists; reflexivity).
  exfalso. eapply Hnet. reflexivity.
Qed.

Lemma fetch_handler_uniform e :
  exists n, forall st, fetch_handler e st = (emit [(Error, n)] st, Returned tt).
Proof.
  unfold fetch_handler.
  destruct (is_RequestException e); [eexists; reflexivity|].
  destruct (is_JSONDecodeError e); [eexists; reflexivity|].
  destruct (is_KeyError e); eexists; reflexivity.
Qed.

(** A fetch whose [try] statement raises [e], shown as the notice [n]. *)
Lemma fetch_raised content_url net e n st :
  content_url <> "" ->
  (forall st0, fetch_body net st0 = (st0, Raised e)) ->
  (forall st0, fetch_handler e st0 = (emit [(Error, n)] st0, Returned tt)) ->
  fetch_and_populate_variables_action content_url net st =
  (emit [(Info, FetchingFrom content_url); (Error, n)] (set_fetched empty_variables st),
   Returned false).
Proof.
  intros Hurl Hbody Hhandler.
  pose proof (fetch_run content_url net st Hurl) as Hrun.
  rewrite Hbody in Hrun. destruct Hrun as [n' Hrun]. rewrite Hrun.
  assert (n' = n) as ->.
  { apply String.eqb_neq in Hurl.
    unfold fetch_and_populate_variables_action in Hrun.
    rewrite (bind_returned _ _ st (set_fetched empty_variables st) tt) in Hrun
      by reflexivity.
    rewrite Hurl in Hrun.
    rewrite (bind_returned _ _ _
               (emit [(Info, FetchingFrom content_url)] (set_fetched empty_variables st)) tt)
      in Hrun by reflexivity.
    rewrite (bind_returned _ _ _
               (emit [(Error, n)]
                  (emit [(Info, FetchingFrom content_url)]
                     (set_fetched empty_variables st))) None) in Hrun.
    - rewrite (bind_returned _ _ _ _ tt) in Hrun by reflexivity.
      injection Hrun as Hshown. apply List.app_inv_head in Hshown.
      injection Hshown as ->. reflexivity.
    - unfold try_except. rewrite (bind_raised _ _ _ _ e (Hbody _)).
      rewrite (bind_returned _ _ _ _ tt (Hhandler _)). reflexivity. }
  simpl fetched_variable_values. rewrite ensure_initialized_empty.
  rewrite !set_fetched_emit, emit_emit. reflexivity.
Qed.

End ExtractionRuns.

Section ExtractionExtras.

Context `{Repr}.

(** The values the three blocks hand on to one another in the fetch of a
    JSON object: each block leaves the variables of the others alone. *)
Lemma fetch_dict_values content_url d :
  content_url <> "" ->
  exists ws1 v1 ws2 v2 ws3 v3,
    (forall st, extract_interactions (dict_get d "interactions" (PList []))
                  initial_locals st = (emit ws1 st, Returned v1))
    /\ (forall st, extract_reference_screens (dict_get d "referenceScreens" (PList []))
                     v1 st = (emit ws2 st, Returned v2))
    /\ (forall st, extract_secondary_screens (dict_get d "secondaryScreens" (PList []))
                     v2 st = (emit ws3 st, Returned v3))
    /\ (forall st,
          fetch_and_populate_variables_action content_url (Json (PDict d)) st =
          (emit ((Info, FetchingFrom content_url)
                   :: ws1 ++ ws2 ++ ws3 ++ [(Success, FetchedAndProcessed)])
             (set_fetched (populate v3 empty_variables) st),
           Returned true))
    /\ task_instruction_val v3 = task_instruction_val v1
    /\ can_do_statements_val v3 = can_do_statements_val v1
    /\ vocabulary_list_str v3 = vocabulary_list_str v2
    /\ grammar_reference_val v3 = grammar_reference_val v2
    /\ communication_reference_val v3 = communication_reference_val v2
    /\ guiding_questions_val v2 = ""
    /\ vocabulary_list_str v1 = ""
    /\ grammar_reference_val v1 = PStr ""
    /\ communication_reference_val v1 = PStr "".
Proof.
  intros Hurl.
  destruct (fetch_dict_steps content_url d Hurl)
    as (ws1 & v1 & ws2 & v2 & ws3 & v3 & E1 & E2 & E3 & E).
  exists ws1, v1, ws2, v2, ws3, v3.
  destruct (extract_interactions_run (dict_get d "interactions" (PList []))
              initial_locals fresh_session)
    as (ws1' & v1' & E1' & Hvoc1 & Hg1 & Hc1 & Hq1 & _).
  rewrite E1 in E1'. apply emit_inj in E1' as [_ <-].
  destruct (extract_reference_screens_run (dict_get d "referenceScreens" (PList []))
              v1 fresh_session)
    as (ws2' & v2' & E2' & Ht2 & Hq2 & Hs2 & _).
  rewrite E2 in E2'. apply emit_inj in E2' as [_ <-].
  destruct (extract_secondary_screens_run (dict_get d "secondaryScreens" (PList []))
              v2 fresh_session)
    as (ws3' & v3' & E3' & Ht3 & Hvoc3 & Hg3 & Hc3 & Hs3).
  rewrite E3 in E3'. apply emit_inj in E3' as [_ <-].
  simpl in Hvoc1, Hg1, Hc1, Hq1.
  repeat split; try assumption; congruence.
Qed.

(** The fetch in every session at once; the mapping it leaves has the six
    names. *)
Lemma fetch_uniform content_url net :
  exists ws m ok,
    dom m = list_to_set PREDEFINED_VARIABLES
    /\ forall st,
         fetch_and_populate_variables_action content_url net st =
         (emit ws (set_fetched m st), Returned ok).
Proof.
  destruct (String.eqb_spec content_url "") as [->|Hurl].
  { eexists _, _, _. split; [apply dom_empty_variables|].
    intros st. apply fetch_without_url. }
  assert (Hcase : (exists d, net = Json (PDict d)) \/ (forall d, net <> Json (PDict d))).
  { destruct net as [| | |[]]; try (right; discriminate). left. eauto. }
  destruct Hcase as [[d ->]|Hnet].
  - destruct (fetch_dict_steps content_url d Hurl)
      as (ws1 & v1 & ws2 & v2 & ws3 & v3 & _ & _ & _ & E).
    eexists _, _, _. split; [apply dom_populate | exact E].
  - destruct (fetch_body_raises_uniform net Hnet) as [e He].
    destruct (fetch_handler_uniform e) as [n Hn].
    eexists _, _, _. split; [apply dom_empty_variables|].
    intros st. apply (fetch_raised _ _ e n); assumption.
Qed.

(** X1.  A fetch returns, whatever the session: it puts a whole new mapping
    in the place of the fetched values, shows notices behind those shown
    before, and touches nothing else; the mapping, the notices and the
    returned flag depend on the URL and on the endpoint only. *)
Theorem fetch_replaces_variables content_url net :
  exists ws m ok, forall st,
    fetch_and_populate_variables_action content_url net st =
    (emit ws (set_fetched m st), Returned ok).
Proof.
  destruct (fetch_uniform content_url net) as (ws & m & ok & _ & E).
  exists ws, m, ok. exact E.
Qed.

(** X2.  Fetching the same URL with the same outcome a second time leaves
    the fetched values and the returned flag as the first fetch left them. *)
Theorem fetch_twice_as_once content_url net st :
  let first := fetch_and_populate_variables_action content_url net st in
  let second := fetch_and_populate_variables_action content_url net (fst first) in
  fetched_variable_values (fst second) = fetched_variable_values (fst first)
  /\ snd second = snd first.
Proof.
  intros first second. subst first second.
  destruct (fetch_uniform content_url net) as (ws & m & ok & _ & E).
  rewrite !E. split; reflexivity.
Qed.

(** X3.  The fetch returns [True] exactly when a URL was given and the
    endpoint answered with a JSON object. *)
Theorem fetch_succeeds_iff_object content_url net st :
  snd (fetch_and_populate_variables_action content_url net st) = Returned true
  <-> content_url <> "" /\ exists d, net = Json (PDict d).
Proof.
  split.
  - intros Hok.
    destruct (String.eqb_spec content_url "") as [->|Hurl].
    { rewrite fetch_without_url in Hok. discriminate Hok. }
    split; [assumption|].
    assert (Hcase : (exists d, net = Json (PDict d)) \/ (forall d, net <> Json (PDict d))).
    { destruct net as [| | |[]]; try (right; discriminate). left. eauto. }
    destruct Hcase as [Hd|Hnet]; [assumption|].
    destruct (fetch_body_raises_uniform net Hnet) as [e He].
    destruct (fetch_handler_uniform e) as [n Hn].
    rewrite (fetch_raised _ _ e n st Hurl He Hn) in Hok. discriminate Hok.
  - intros [Hurl [d ->]].
    destruct (fetch_dict_steps content_url d Hurl)
      as (ws1 & v1 & ws2 & v2 & ws3 & v3 & _ & _ & _ & E).
    rewrite E. reflexivity.
Qed.

(** X4.  A body that is JSON but not an object (a list, a string, a number,
    null) fails the fetch as a whole: the first [.get] raises, the last
    [except] clause shows the error, the six variables are empty and the
    function returns [False]. *)
Theorem non_object_body_fails_fetch content_url activity_data st :
  content_url <> "" -> (forall d, activity_data <> PDict d) ->
  fetch_and_populate_variables_action content_url (Json activity_data) st =
  (emit [(Info, FetchingFrom content_url); (Error, UnexpectedFetchError AttributeError)]
     (set_fetched empty_variables st),
   Returned false).
Proof.
  intros Hurl Hshape. apply (fetch_raised _ _ AttributeError); [assumption| |reflexivity].
  intros st0. destruct activity_data; try reflexivity.
  exfalso. eapply Hshape. reflexivity.
Qed.



Lemma extract_interactions_other interactions v st :
  (forall x rest, interactions <> PList (x :: rest)) ->
  extract_interactions interactions v st = (emit [(Warning, NoInteractions)] st, Returned v).
Proof.
  intros Hshape. destruct interactions as [| | | | |[|x rest]|]; try reflexivity.
  exfalso. eapply Hshape. reflexivity.
Qed.

Lemma extract_reference_screens_other reference_screens v st :
  (forall screens, reference_screens <> PList screens) ->
  extract_reference_screens reference_screens v st =
  (emit [(Warning, NoReferenceScreens)] st, Returned v).
Proof.
  intros Hshape. destruct reference_screens; try reflexivity.
  exfalso. eapply Hshape. reflexivity.
Qed.

Lemma extract_secondary_screens_other secondary_screens v st :
  (forall screens, secondary_screens <> PList screens) ->
  extract_secondary_screens secondary_screens v st =
  (emit [(Warning, NoSecondaryScreens)] st, Returned v).
Proof.
  intros Hshape. destruct secondary_screens; try reflexivity.
  exfalso. eapply Hshape. reflexivity.
Qed.

(** X7.  A section of the wrong shape does not fail the fetch of a JSON
    object: the function still returns [True]; when [interactions] is not a
    non-empty list, or [referenceScreens] or [secondaryScreens] is not a list,
    a warning says so and the variables of that section are empty. *)
Theorem misshapen_sections_are_skipped content_url d st :
  content_url <> "" ->
  exists ws m,
    fetch_and_populate_variables_action content_url (Json (PDict d)) st =
    (emit ws (set_fetched m st), Returned true)
    /\ ((forall x rest, dict_get d "interactions" (PList []) <> PList (x :: rest)) ->
        In (Warning, NoInteractions) ws
        /\ m !! "task_instruction" = Some (PStr "")
        /\ m !! "can_do_statements" = Some (PStr ""))
    /\ ((forall screens, dict_get d "referenceScreens" (PList []) <> PList screens) ->
        In (Warning, NoReferenceScreens) ws
        /\ m !! "vocabulary_list" = Some (PStr "")
        /\ m !! "grammar_reference" = Some (PStr "")
        /\ m !! "communication_reference" = Some (PStr ""))
    /\ ((forall screens, dict_get d "secondaryScreens" (PList []) <> PList screens) ->
        In (Warning, NoSecondaryScreens) ws
        /\ m !! "guiding_questions" = Some (PStr "")).
Proof.
  intros Hurl.
  destruct (fetch_dict_values content_url d Hurl)
    as (ws1 & v1 & ws2 & v2 & ws3 & v3 & E1 & E2 & E3 & E
        & Ht & Hs & Hvoc & Hg & Hc & Hq & Hvoc1 & Hg1 & Hc1).
  eexists _, _. split; [apply E|].
  destruct (populate_lookup v3 empty_variables) as (Lt & Lv & Lg & Lc & Lq & Ls).
  split; [|split].
  - intros Hshape. specialize (E1 fresh_session).
    rewrite (extract_interactions_other _ _ _ Hshape) in E1.
    apply emit_inj in E1 as [<- <-].
    rewrite Lt, Ls, Ht, Hs. repeat split. right. left. reflexivity.
  - intros Hshape. specialize (E2 fresh_session).
    rewrite (extract_reference_screens_other _ _ _ Hshape) in E2.
    apply emit_inj in E2 as [<- <-].
    rewrite Lv, Lg, Lc, Hvoc, Hg, Hc, Hvoc1, Hg1, Hc1. repeat split.
    right. apply in_or_app. right. left. reflexivity.
  - intros Hshape. specialize (E3 fresh_session).
    rewrite (extract_secondary_screens_other _ _ _ Hshape) in E3.
    apply emit_inj in E3 as [<- <-].
    rewrite Lq, Hq. repeat split.
    right. apply in_or_app. right. apply in_or_app. right. left. reflexivity.
Qed.

End ExtractionExtras.

(** A JSON list as the body. *)
Lemma non_object_body_fails_fetch_witness :
  fetch_and_populate_variables_action (H := repr_sample) "u" (Json (PList [])) fresh_session =
  (emit [(Info, FetchingFrom "u"); (Error, UnexpectedFetchError AttributeError)]
     (set_fetched empty_variables fresh_session),
   Returned false).
Proof.
  apply (non_object_body_fails_fetch (H := repr_sample) "u" (PList []) fresh_session);
    [discriminate | intros d; discriminate].
Defined.



(** A string for the interactions and a number for the reference screens. *)
Lemma misshapen_sections_are_skipped_witness :
  exists ws m,
    fetch_and_populate_variables_action (H := repr_sample) "u"
      (Json (PDict misshapen_document)) fresh_session =
    (emit ws (set_fetched m fresh_session), Returned true)
    /\ In (Warning, NoInteractions) ws
    /\ In (Warning, NoReferenceScreens) ws
    /\ m !! "task_instruction" = Some (PStr "")
    /\ m !! "vocabulary_list" = Some (PStr "").
Proof.
  destruct (misshapen_sections_are_skipped (H := repr_sample) "u" misshapen_document
              fresh_session) as (ws & m & E & Hi & Hr & _); [discriminate|].
  exists ws, m. split; [exact E|].
  destruct Hi as (Hwi & Ht & _); [intros x rest; discriminate|].
  destruct Hr as (Hwr & Hv & _); [intros screens; discriminate|].
  auto.
Defined.

(** ** More on the generation *)

Section GenerationExtras.

Context `{Repr}.

(** The run of the function in its four branches. *)
Lemma generate_text_box_exact prompt_template m content_url answers_input st :
  let current_student_answer := if truthy answers_input then answers_input else PStr "" in
  generate_prompt_action prompt_template m content_url answers_input TEXT_BOX st =
  (emit ((if negb (bool_decide (non_allowed_vars prompt_template = ∅))
          then [(Warning, NonAllowedVariables (non_allowed_vars prompt_template))]
          else [])
         ++ (if negb (truthy current_student_answer)
                && bool_decide ("student_answer" ∈ template_vars_in_use prompt_template)
             then [(Info, NoAnswerInTextBox)] else [])
         ++ [(Success, ProcessingComplete)]) st,
   Returned [fill prompt_template
               (dict_set "student_answer" current_student_answer
                  (all_vars_for_template m))]).
Proof.
  intros current_student_answer. unfold generate_prompt_action.
  erewrite bind_returned by apply when_show.
  change (String.eqb TEXT_BOX TEXT_BOX) with true. cbv iota.
  erewrite bind_returned;
    [|erewrite bind_returned by apply when_show; reflexivity].
  erewrite bind_returned by (apply (when_show false)).
  erewrite bind_returned by reflexivity.
  unfold ret. rewrite show_emit, !emit_emit. reflexivity.
Qed.

Lemma generate_upload_csv_exact prompt_template m content_url a answers st :
  generate_prompt_action prompt_template m content_url (PList (a :: answers)) UPLOAD_CSV st =
  (emit ((if negb (bool_decide (non_allowed_vars prompt_template = ∅))
          then [(Warning, NonAllowedVariables (non_allowed_vars prompt_template))]
          else [])
         ++ [(Success, ProcessingComplete)]) st,
   Returned (map (fun a => fill prompt_template
                             (dict_set "student_answer" a (all_vars_for_template m)))
                 (a :: answers))).
Proof.
  unfold generate_prompt_action.
  erewrite bind_returned by apply when_show.
  change (String.eqb UPLOAD_CSV TEXT_BOX) with false.
  change (String.eqb UPLOAD_CSV UPLOAD_CSV) with true. cbv iota.
  erewrite bind_returned by reflexivity.
  erewrite bind_returned by (apply (when_show false)).
  erewrite bind_returned by reflexivity.
  unfold ret. rewrite show_emit, !emit_emit. reflexivity.
Qed.

Lemma generate_upload_csv_none prompt_template m content_url answers_input st :
  (forall a answers, answers_input <> PList (a :: answers)) ->
  generate_prompt_action prompt_template m content_url answers_input UPLOAD_CSV st =
  (emit ((if negb (bool_decide (non_allowed_vars prompt_template = ∅))
          then [(Warning, NonAllowedVariables (non_allowed_vars prompt_template))]
          else [])
         ++ [if negb (truthy answers_input)
             then (Warning, NoAnswersFromCsv) else (Info, NoAnswersExtracted);
             (Info, NoPromptsGenerated); (Success, ProcessingComplete)]) st,
   Returned []).
Proof.
  intros Hshape. unfold generate_prompt_action.
  erewrite bind_returned by apply when_show.
  change (String.eqb UPLOAD_CSV TEXT_BOX) with false.
  change (String.eqb UPLOAD_CSV UPLOAD_CSV) with true. cbv iota.
  set (st1 := emit (if negb (bool_decide (non_allowed_vars prompt_template = ∅))
                    then [(Warning, NonAllowedVariables (non_allowed_vars prompt_template))]
                    else []) st).
  rewrite (bind_returned _ _ st1
             (emit [if negb (truthy answers_input)
                    then (Warning, NoAnswersFromCsv) else (Info, NoAnswersExtracted)] st1)
             []).
  2: { destruct (negb (truthy answers_input));
         destruct answers_input as [| | | | |[|a answers]|]; try reflexivity;
         exfalso; eapply Hshape; reflexivity. }
  erewrite bind_returned by (apply (when_show true)).
  erewrite bind_returned by reflexivity.
  unfold ret, st1. rewrite !show_emit, !emit_emit. reflexivity.
Qed.

Lemma generate_other_method prompt_template m content_url answers_input answers_method st :
  answers_method <> TEXT_BOX -> answers_method <> UPLOAD_CSV ->
  generate_prompt_action prompt_template m content_url answers_input answers_method st =
  (emit ((if negb (bool_decide (non_allowed_vars prompt_template = ∅))
          then [(Warning, NonAllowedVariables (non_allowed_vars prompt_template))]
          else [])
         ++ [(Error, InvalidAnswerMethod); (Info, NoPromptsGenerated);
             (Success, ProcessingComplete)]) st,
   Returned []).
Proof.
  intros Htext Hcsv. unfold generate_prompt_action.
  erewrite bind_returned by apply when_show.
  apply String.eqb_neq in Htext, Hcsv. rewrite Htext, Hcsv.
  erewrite bind_returned by reflexivity.
  erewrite bind_returned by (apply (when_show true)).
  erewrite bind_returned by reflexivity.
  unfold ret. rewrite !show_emit, !emit_emit. reflexivity.
Qed.

Lemma payload_cases (answers_input : pyval) :
  (exists a answers, answers_input = PList (a :: answers))
  \/ (forall a answers, answers_input <> PList (a :: answers)).
Proof.
  destruct answers_input as [| | | | |[|a answers]|]; try (right; discriminate).
  left. eauto.
Qed.

(** The generation in every session at once. *)
Lemma generate_uniform prompt_template m content_url answers_input answers_method :
  exists ws generated_prompts, forall st,
    generate_prompt_action prompt_template m content_url answers_input answers_method st =
    (emit (ws ++ [(Success, ProcessingComplete)]) st, Returned generated_prompts).
Proof.
  destruct (String.eqb_spec answers_method TEXT_BOX) as [->|Htext].
  { eexists _, _. intros st. rewrite generate_text_box_exact.
    rewrite List.app_assoc. reflexivity. }
  destruct (String.eqb_spec answers_method UPLOAD_CSV) as [->|Hcsv].
  - destruct (payload_cases answers_input) as [(a & answers & ->)|Hshape].
    + eexists _, _. intros st. rewrite generate_upload_csv_exact. reflexivity.
    + eexists (_ ++ [_; _]), _. intros st.
      rewrite (generate_upload_csv_none _ _ _ _ _ Hshape).
      rewrite <- List.app_assoc. reflexivity.
  - eexists (_ ++ [_; _]), _. intros st.
    rewrite (generate_other_method _ _ _ _ _ _ Htext Hcsv).
    rewrite <- List.app_assoc. reflexivity.
Qed.

(** X8.  The generation returns, whatever its inputs, and only shows
    notices: the fetched values, the batch, the kept file name and the single
    answer are as they were; the notices and the prompts do not depend on the
    session; and the last notice always says that the processing is complete,
    also when no prompt was made. *)
Theorem generate_only_shows_notices
    prompt_template m content_url answers_input answers_method :
  exists ws generated_prompts, forall st,
    let st' := fst (generate_prompt_action prompt_template m content_url answers_input
                      answers_method st) in
    snd (generate_prompt_action prompt_template m content_url answers_input
           answers_method st) = Returned generated_prompts
    /\ fetched_variable_values st' = fetched_variable_values st
    /\ uploaded_csv_answers st' = uploaded_csv_answers st
    /\ last_uploaded_filename st' = last_uploaded_filename st
    /\ single_answer st' = single_answer st
    /\ shown st' = shown st ++ ws ++ [(Success, ProcessingComplete)].
Proof.
  destruct (generate_uniform prompt_template m content_url answers_input answers_method)
    as (ws & generated_prompts & E).
  exists ws, generated_prompts. intros st st'. subst st'. rewrite E.
  repeat split.
Qed.

Lemma non_allowed_empty prompt_template :
  non_allowed_vars prompt_template = ∅
  <-> forall u, In u (Re.findall prompt_template) -> in_list u ALL_POSSIBLE_VARIABLES = true.
Proof.
  split.
  - intros Hempty u Hu.
    destruct (in_list u ALL_POSSIBLE_VARIABLES) eqn:Hin; [reflexivity|exfalso].
    pose proof (non_allowed_intro _ _ Hu Hin) as Hmem. rewrite Hempty in Hmem.
    exact (not_elem_of_empty u Hmem).
  - intros Hall. apply set_eq. intros u. split; [|intros Hu; destruct (not_elem_of_empty u Hu)].
    unfold non_allowed_vars, template_vars_in_use.
    rewrite elem_of_difference, !elem_of_list_to_set, !list_elem_of_In.
    intros [Hu Hnot]. exfalso. apply Hnot, in_list_In, Hall, Hu.
Qed.

Lemma forallb_false {A} (f : A -> bool) (l : list A) :
  forallb f l = false -> exists x, In x l /\ f x = false.
Proof.
  induction l as [|a l IH]; [discriminate|]. simpl.
  intros [Ha|Hl]%andb_false_iff.
  - exists a. auto.
  - destruct (IH Hl) as (x & Hx & Hf). exists x. auto.
Qed.

Lemma warning_in_notices prompt_template names rest :
  (forall names', ~ In (Warning, NonAllowedVariables names') rest) ->
  In (Warning, NonAllowedVariables names)
     ((if negb (bool_decide (non_allowed_vars prompt_template = ∅))
       then [(Warning, NonAllowedVariables (non_allowed_vars prompt_template))]
       else []) ++ rest)
  <-> names = non_allowed_vars prompt_template
      /\ exists u, In u (Re.findall prompt_template)
                   /\ in_list u ALL_POSSIBLE_VARIABLES = false.
Proof.
  intros Hrest. rewrite in_app_iff. split.
  - intros [Hin|Hin]; [|destruct (Hrest _ Hin)].
    destruct (bool_decide (non_allowed_vars prompt_template = ∅)) eqn:Hd; [destruct Hin|].
    destruct Hin as [[= <-]|[]]. split; [reflexivity|].
    apply bool_decide_eq_false in Hd.
    destruct (forallb (fun u => in_list u ALL_POSSIBLE_VARIABLES)
                (Re.findall prompt_template)) eqn:Hall.
    + exfalso. apply Hd, non_allowed_empty. rewrite forallb_forall in Hall. exact Hall.
    + apply forallb_false in Hall as (u & Hu & Hnot).
      exists u. split; assumption.
  - intros [-> (u & Hu & Hnot)]. left.
    rewrite bool_decide_eq_false_2; [left; reflexivity|].
    intros Hempty. rewrite non_allowed_empty in Hempty.
    rewrite (Hempty u Hu) in Hnot. discriminate Hnot.
Qed.

(** X9.  The warning about names that are not allowed is shown exactly when
    the scan of the template finds a name outside the whitelist, whatever
    the answers and the method; it lists the names of the template that are
    not whitelisted. *)
Theorem warning_iff_unknown_name
    prompt_template m content_url answers_input answers_method :
  exists ws,
    (forall st,
       shown (fst (generate_prompt_action prompt_template m content_url answers_input
                     answers_method st)) = shown st ++ ws)
    /\ forall names,
         In (Warning, NonAllowedVariables names) ws
         <-> names = non_allowed_vars prompt_template
             /\ exists u, In u (Re.findall prompt_template)
                          /\ in_list u ALL_POSSIBLE_VARIABLES = false.
Proof.
  destruct (String.eqb_spec answers_method TEXT_BOX) as [->|Htext].
  { eexists. split.
    - intros st. rewrite generate_text_box_exact. reflexivity.
    - intros names. apply warning_in_notices. intros names' Hin.
      apply in_app_iff in Hin as [Hin|[Hin|[]]]; [|discriminate Hin].
      destruct (_ && _); [destruct Hin as [Hin|[]]; discriminate Hin | destruct Hin]. }
  destruct (String.eqb_spec answers_method UPLOAD_CSV) as [->|Hcsv].
  - destruct (payload_cases answers_input) as [(a & answers & ->)|Hshape].
    + eexists. split.
      * intros st. rewrite generate_upload_csv_exact. reflexivity.
      * intros names. apply warning_in_notices. intros names' [Hin|[]]. discriminate Hin.
    + eexists. split.
      * intros st. rewrite (generate_upload_csv_none _ _ _ _ _ Hshape). reflexivity.
      * intros names. apply warning_in_notices.
        intros names' [Hin|[Hin|[Hin|[]]]]; try discriminate Hin.
        destruct (negb _); discriminate Hin.
  - eexists. split.
    + intros st. rewrite (generate_other_method _ _ _ _ _ _ Htext Hcsv). reflexivity.
    + intros names. apply warning_in_notices.
      intros names' [Hin|[Hin|[Hin|[]]]]; discriminate Hin.
Qed.

(** X10.  In text mode there is always exactly one prompt, also for an empty
    answer, which is put in as the empty string; the note about a missing
    answer is shown exactly when the answer is falsy and the scan finds
    student_answer in the template. *)
Theorem text_box_makes_one_prompt prompt_template m content_url answers_input st :
  exists ws,
    generate_prompt_action prompt_template m content_url answers_input TEXT_BOX st =
    (emit ws st,
     Returned [fill prompt_template
                 (dict_set "student_answer"
                    (if truthy answers_input then answers_input else PStr "")
                    (all_vars_for_template m))])
    /\ (In (Info, NoAnswerInTextBox) ws
        <-> truthy answers_input = false
            /\ In "student_answer" (Re.findall prompt_template)).
Proof.
  eexists. split; [apply generate_text_box_exact|].
  assert (Htruthy : truthy (if truthy answers_input then answers_input else PStr "")
                    = truthy answers_input).
  { destruct (truthy answers_input) eqn:Ht; [exact Ht | reflexivity]. }
  rewrite Htruthy. rewrite !in_app_iff. split.
  - intros [Hin|[Hin|[Hin|[]]]]; try discriminate Hin.
    + destruct (negb (bool_decide _)); [destruct Hin as [Hin|[]]; discriminate Hin
                                       | destruct Hin].
    + destruct (negb (truthy answers_input)
                && bool_decide ("student_answer" ∈ template_vars_in_use prompt_template))
        eqn:Hb; [|destruct Hin].
      apply andb_true_iff in Hb as [Ht Hu]. apply negb_true_iff in Ht.
      split; [assumption|].
      apply bool_decide_eq_true in Hu. unfold template_vars_in_use in Hu.
      apply elem_of_list_to_set, list_elem_of_In in Hu. exact Hu.
  - intros [Ht Hu]. right. left. rewrite Ht. simpl.
    rewrite bool_decide_eq_true_2; [left; reflexivity|].
    unfold template_vars_in_use. apply elem_of_list_to_set, list_elem_of_In. exact Hu.
Qed.

(** X11.  In batch mode with anything but a non-empty list of answers, no
    batch loaded or an empty one, no prompt is made; a warning says that no
    answers were processed when the payload is falsy, and a note says that no
    prompts were generated. *)
Theorem batch_without_answers_makes_nothing
    prompt_template m content_url answers_input st :
  (forall a answers, answers_input <> PList (a :: answers)) ->
  exists ws,
    generate_prompt_action prompt_template m content_url answers_input UPLOAD_CSV st =
    (emit ws st, Returned [])
    /\ In (Info, NoPromptsGenerated) ws
    /\ (truthy answers_input = false -> In (Warning, NoAnswersFromCsv) ws).
Proof.
  intros Hshape. eexists. split; [apply (generate_upload_csv_none _ _ _ _ _ Hshape)|].
  split.
  - apply in_or_app. right. right. left. reflexivity.
  - intros Ht. apply in_or_app. right. left. rewrite Ht. reflexivity.
Qed.

(** X12.  With a method that is neither of the two options an error is
    shown and no prompt is made, whatever the answers. *)
Theorem other_method_makes_nothing
    prompt_template m content_url answers_input answers_method st :
  answers_method <> TEXT_BOX -> answers_method <> UPLOAD_CSV ->
  exists ws,
    generate_prompt_action prompt_template m content_url answers_input answers_method st =
    (emit ws st, Returned [])
    /\ In (Error, InvalidAnswerMethod) ws
    /\ In (Info, NoPromptsGenerated) ws.
Proof.
  intros Htext Hcsv. eexists.
  split; [apply (generate_other_method _ _ _ _ _ _ Htext Hcsv)|].
  split; apply in_or_app; right; [left | right; left]; reflexivity.
Qed.

Lemma fill_reads_text prompt_template m1 m2 a :
  (forall key, In key PREDEFINED_VARIABLES ->
               py_str (default (PStr "") (m1 !! key))
               = py_str (default (PStr "") (m2 !! key))) ->
  fill prompt_template (dict_set "student_answer" a (all_vars_for_template m1))
  = fill prompt_template (dict_set "student_answer" a (all_vars_for_template m2)).
Proof.
  intros Hsame. rewrite !fill_row. f_equal.
  unfold fill, all_vars_for_template. simpl.
  rewrite !Hsame by (simpl; auto 10). reflexivity.
Qed.

(** X13.  The generation reads the fetched mapping at the six content names
    only and takes the [str] of what it finds, the empty string for a name
    that is missing: two mappings that agree in this give the same notices
    and the same prompts; other keys, student_answer among them, are
    ignored. *)
Theorem generation_reads_six_values_as_text
    prompt_template m1 m2 content_url answers_input answers_method st :
  (forall key, In key PREDEFINED_VARIABLES ->
               py_str (default (PStr "") (m1 !! key))
               = py_str (default (PStr "") (m2 !! key))) ->
  generate_prompt_action prompt_template m1 content_url answers_input answers_method st
  = generate_prompt_action prompt_template m2 content_url answers_input answers_method st.
Proof.
  intros Hsame.
  destruct (String.eqb_spec answers_method TEXT_BOX) as [->|Htext].
  { rewrite !generate_text_box_exact. rewrite (fill_reads_text _ m1 m2 _ Hsame).
    reflexivity. }
  destruct (String.eqb_spec answers_method UPLOAD_CSV) as [->|Hcsv].
  - destruct (payload_cases answers_input) as [(a & answers & ->)|Hshape].
    + rewrite !generate_upload_csv_exact. do 2 f_equal.
      apply map_ext. intros a'. apply fill_reads_text. exact Hsame.
    + rewrite !(generate_upload_csv_none _ _ _ _ _ Hshape). reflexivity.
  - rewrite !(generate_other_method _ _ _ _ _ _ Htext Hcsv). reflexivity.
Qed.

(** X14.  A batch of one truthy answer gives the prompt that the text box
    gives for that answer. *)
Theorem batch_of_one_as_text_box prompt_template m content_url a st :
  truthy a = true ->
  snd (generate_prompt_action prompt_template m content_url (PList [a]) UPLOAD_CSV st)
  = snd (generate_prompt_action prompt_template m content_url a TEXT_BOX st).
Proof.
  intros Ha. rewrite generate_upload_csv_exact, generate_text_box_exact.
  rewrite Ha. reflexivity.
Qed.

End GenerationExtras.

(** No batch is loaded. *)
Lemma batch_without_answers_makes_nothing_witness :
  exists ws,
    generate_prompt_action (H := repr_sample) "Answer: {{student_answer}}" ∅ "" PNone
      UPLOAD_CSV fresh_session = (emit ws fresh_session, Returned [])
    /\ In (Info, NoPromptsGenerated) ws
    /\ In (Warning, NoAnswersFromCsv) ws.
Proof.
  destruct (batch_without_answers_makes_nothing (H := repr_sample)
              "Answer: {{student_answer}}" ∅ "" PNone fresh_session)
    as (ws & E & Hnote & Hwarn); [intros a answers; discriminate|].
  exists ws. split; [exact E|]. split; [exact Hnote|]. apply Hwarn. reflexivity.
Defined.

(** A method the radio group does not offer. *)
Lemma other_method_makes_nothing_witness :
  exists ws,
    generate_prompt_action (H := repr_sample) "Answer: {{student_answer}}" ∅ ""
      (PStr "hello") "Dictate" fresh_session = (emit ws fresh_session, Returned [])
    /\ In (Error, InvalidAnswerMethod) ws
    /\ In (Info, NoPromptsGenerated) ws.
Proof.
  apply (other_method_makes_nothing (H := repr_sample) "Answer: {{student_answer}}" ∅ ""
           (PStr "hello") "Dictate" fresh_session); discriminate.
Defined.

(** The number 5 and the text "5"; a missing name and the empty string. *)
Lemma generation_reads_six_values_as_text_witness :
  generate_prompt_action (H := repr_sample) "{{task_instruction}}: {{vocabulary_list}}"
    (<["task_instruction" := PInt 5]> ∅) "" (PStr "") TEXT_BOX fresh_session
  = generate_prompt_action (H := repr_sample) "{{task_instruction}}: {{vocabulary_list}}"
      (<["task_instruction" := PStr "5"]> (<["vocabulary_list" := PStr ""]>
         (<["student_answer" := PStr "kept out"]> ∅))) "" (PStr "") TEXT_BOX fresh_session.
Proof.
  apply (generation_reads_six_values_as_text (H := repr_sample)).
  intros key Hkey. simpl in Hkey.
  repeat (destruct Hkey as [<-|Hkey]; [vm_compute; reflexivity|]). destruct Hkey.
Defined.

(** One answer, in a batch and in the text box. *)
Lemma batch_of_one_as_text_box_witness :
  snd (generate_prompt_action (H := repr_sample) "Answer: {{student_answer}}" ∅ ""
         (PList [PStr "hello"]) UPLOAD_CSV fresh_session)
  = snd (generate_prompt_action (H := repr_sample) "Answer: {{student_answer}}" ∅ ""
           (PStr "hello") TEXT_BOX fresh_session).
Proof.
  apply (batch_of_one_as_text_box (H := repr_sample) "Answer: {{student_answer}}" ∅ ""
           (PStr "hello") fresh_session). reflexivity.
Defined.

(** ** More on the upload of a batch *)

Section UploadExtras.

Context `{Repr}.

Lemma set_csv_same st :
  set_csv (uploaded_csv_answers st) (last_uploaded_filename st) st = st.
Proof. destruct st. reflexivity. Qed.

Lemma clear_single_answer_run st :
  bind (fun st0 => (st0, Returned (single_answer st0)))
       (fun single => when (truthy single) (update (set_single_answer (PStr "")))) st
  = (without_single_answer st, Returned tt).
Proof.
  unfold bind, without_single_answer. destruct (truthy (single_answer st)); reflexivity.
Qed.

Lemma load_csv_loaded file df cells st :
  read_csv file = Returned df -> column "Answers" df = Some cells ->
  load_csv file st =
  (emit [(Success, CsvRead (length cells) (name file))]
     (set_csv (Some (map (fun cell => PStr (py_str cell)) cells))
        (last_uploaded_filename st) st),
   Returned tt).
Proof.
  intros Hread Hcol. unfold load_csv, try_except.
  erewrite bind_returned by (rewrite Hread; reflexivity).
  rewrite Hcol. rewrite List.length_map. reflexivity.
Qed.

Lemma load_csv_unreadable file e st :
  read_csv file = Raised e ->
  load_csv file st =
  (set_csv None None (emit [(Error, CsvProcessingError e)] st), Returned tt).
Proof.
  intros Hread. unfold load_csv, try_except.
  erewrite bind_raised by (rewrite Hread; reflexivity). reflexivity.
Qed.

(** A file under a new name is read. *)
Lemma upload_new_name file st st' :
  last_uploaded_filename st <> Some (name file) ->
  load_csv file (set_csv (uploaded_csv_answers st) (Some (name file)) st)
  = (st', Returned tt) ->
  run_ui_upload_csv (Some file) st = (without_single_answer st', Returned tt).
Proof.
  intros Hname Hload. unfold run_ui_upload_csv.
  erewrite bind_returned.
  2: { erewrite bind_returned by reflexivity.
       rewrite bool_decide_eq_false_2 by congruence. cbn [negb].
       erewrite bind_returned by reflexivity. exact Hload. }
  apply clear_single_answer_run.
Qed.

(** A file under the name kept from the last upload is not read. *)
Lemma upload_same_name file st :
  last_uploaded_filename st = Some (name file) ->
  run_ui_upload_csv (Some file) st =
  (without_single_answer
     (emit match uploaded_csv_answers st with
           | Some ((_ :: _) as l) => [(Info, UsingPreviousCsv (name file) (length l))]
           | _ => []
           end st),
   Returned tt).
Proof.
  intros Hname. unfold run_ui_upload_csv.
  rewrite (bind_returned _ _ st
             (emit match uploaded_csv_answers st with
                   | Some ((_ :: _) as l) => [(Info, UsingPreviousCsv (name file) (length l))]
                   | _ => []
                   end st) tt).
  - apply clear_single_answer_run.
  - erewrite bind_returned by reflexivity.
    rewrite bool_decide_eq_true_2 by congruence. cbn [negb].
    erewrite bind_returned by reflexivity.
    destruct (uploaded_csv_answers st) as [[|a l]|]; rewrite ?emit_nil; reflexivity.
Qed.

(** The uploader without a file. *)
Lemma upload_nothing st :
  run_ui_upload_csv None st =
  (without_single_answer
     match last_uploaded_filename st with
     | Some _ => set_csv None None (emit [(Info, CsvUploaderEmpty)] st)
     | None => st
     end,
   Returned tt).
Proof.
  unfold run_ui_upload_csv.
  rewrite (bind_returned _ _ st
             match last_uploaded_filename st with
             | Some _ => set_csv None None (emit [(Info, CsvUploaderEmpty)] st)
             | None => st
             end tt).
  - apply clear_single_answer_run.
  - erewrite bind_returned by reflexivity.
    destruct (last_uploaded_filename st); reflexivity.
Qed.

(** The branch of the upload, whatever the file and the session: it returns;
    the batch and the name it keeps are those of before, or none, or the
    answers of the file as texts under the name of the file. *)
Lemma upload_cases uploaded_file st :
  exists answers kept ws,
    run_ui_upload_csv uploaded_file st =
    (without_single_answer (emit ws (set_csv answers kept st)), Returned tt)
    /\ ((answers = uploaded_csv_answers st /\ kept = last_uploaded_filename st)
        \/ (answers = None /\ kept = None)
        \/ (exists file cells,
              uploaded_file = Some file
              /\ answers = Some (map (fun cell => PStr (py_str cell)) cells)
              /\ kept = Some (name file))).
Proof.
  destruct uploaded_file as [file|].
  - destruct (decide (last_uploaded_filename st = Some (name file))) as [Hname|Hname].
    { exists (uploaded_csv_answers st), (last_uploaded_filename st). eexists. split.
      - rewrite (upload_same_name _ _ Hname), set_csv_same. reflexivity.
      - left. split; reflexivity. }
    destruct (read_csv file) as [df|e] eqn:Hread.
    + destruct (column "Answers" df) as [cells|] eqn:Hcol.
      * exists (Some (map (fun cell => PStr (py_str cell)) cells)), (Some (name file)),
          [(Success, CsvRead (length cells) (name file))]. split.
        -- apply (upload_new_name _ _ _ Hname).
           rewrite (load_csv_loaded _ _ _ _ Hread Hcol). reflexivity.
        -- right. right. exists file, cells. repeat split.
      * exists None, None, [(Error, CsvMissingAnswers)]. split.
        -- apply (upload_new_name _ _ _ Hname).
           rewrite (load_csv_missing _ _ _ Hread Hcol). reflexivity.
        -- right. left. split; reflexivity.
    + exists None, None, [(Error, CsvProcessingError e)]. split.
      * apply (upload_new_name _ _ _ Hname).
        rewrite (load_csv_unreadable _ _ _ Hread). reflexivity.
      * right. left. split; reflexivity.
  - rewrite upload_nothing. destruct (last_uploaded_filename st) eqn:Hlast.
    + exists None, None, [(Info, CsvUploaderEmpty)]. split; [reflexivity|].
      right. left. split; reflexivity.
    + exists (uploaded_csv_answers st), (last_uploaded_filename st), []. split.
      * rewrite emit_nil, set_csv_same. reflexivity.
      * left. split; [reflexivity | assumption].
Qed.

Lemma without_single_answer_fields st :
  fetched_variable_values (without_single_answer st) = fetched_variable_values st
  /\ uploaded_csv_answers (without_single_answer st) = uploaded_csv_answers st
  /\ last_uploaded_filename (without_single_answer st) = last_uploaded_filename st
  /\ shown (without_single_answer st) = shown st
  /\ truthy (single_answer (without_single_answer st)) = false.
Proof.
  unfold without_single_answer.
  destruct (truthy (single_answer st)) eqn:Ht; repeat split; try reflexivity. exact Ht.
Qed.


(** X16.  A file under a new name that [pd.read_csv] cannot read: the
    exception is caught and shown as an error, no batch is kept, an earlier
    one neither, and the name of the file is forgotten. *)
Theorem unreadable_upload_clears_batch file e st :
  last_uploaded_filename st <> Some (name file) ->
  read_csv file = Raised e ->
  let st' := fst (run_ui_upload_csv (Some file) st) in
  snd (run_ui_upload_csv (Some file) st) = Returned tt
  /\ uploaded_csv_answers st' = None
  /\ last_uploaded_filename st' = None
  /\ shown st' = shown st ++ [(Error, CsvProcessingError e)].
Proof.
  intros Hname Hread st'. subst st'.
  rewrite (upload_new_name _ _ _ Hname (load_csv_unreadable _ _ _ Hread)).
  cbn [fst snd].
  destruct (without_single_answer_fields
              (set_csv None None
                 (emit [(Error, CsvProcessingError e)]
                    (set_csv (uploaded_csv_answers st) (Some (name file)) st))))
    as (_ & -> & -> & -> & _).
  repeat split.
Qed.

(** X17.  A file under the name kept from the last upload is not read: the
    run is the same whatever the file holds, and the batch and the kept name
    stay as they are. *)
Theorem upload_under_kept_name_is_not_read file contents st :
  last_uploaded_filename st = Some (name file) ->
  let st' := fst (run_ui_upload_csv (Some file) st) in
  run_ui_upload_csv (Some file) st
  = run_ui_upload_csv (Some {| name := name file; read_csv := contents |}) st
  /\ uploaded_csv_answers st' = uploaded_csv_answers st
  /\ last_uploaded_filename st' = last_uploaded_filename st.
Proof.
  intros Hname st'. subst st'.
  rewrite (upload_same_name file st Hname).
  rewrite (upload_same_name {| name := name file; read_csv := contents |} st Hname).
  cbn [fst name]. split; [reflexivity|].
  match goal with
  | |- context [without_single_answer ?s] =>
      destruct (without_single_answer_fields s) as (_ & -> & -> & _)
  end.
  split; reflexivity.
Qed.

(** X18.  The uploader without a file: when a name is kept from an earlier
    upload, the batch and the name are dropped and a note says so; when none
    is kept, the batch stays and nothing is shown. *)
Theorem emptied_uploader_drops_batch st :
  let st' := fst (run_ui_upload_csv None st) in
  (forall kept, last_uploaded_filename st = Some kept ->
     uploaded_csv_answers st' = None
     /\ last_uploaded_filename st' = None
     /\ shown st' = shown st ++ [(Info, CsvUploaderEmpty)])
  /\ (last_uploaded_filename st = None ->
        uploaded_csv_answers st' = uploaded_csv_answers st
        /\ last_uploaded_filename st' = None
        /\ shown st' = shown st).
Proof.
  intros st'. subst st'. rewrite upload_nothing. cbn [fst].
  match goal with
  | |- context [without_single_answer ?s] =>
      destruct (without_single_answer_fields s) as (_ & -> & -> & -> & _)
  end.
  split.
  - intros kept ->. repeat split.
  - intros Hnone. rewrite Hnone. repeat split. assumption.
Qed.

(** X19.  After an upload that failed, by a missing column or an unreadable
    file, the name is not kept, so that the same file is read again, and
    fails again, in the next run. *)
Theorem failed_upload_is_read_again file st :
  last_uploaded_filename st <> Some (name file) ->
  (exists e, read_csv file = Raised e)
  \/ (exists df, read_csv file = Returned df /\ column "Answers" df = None) ->
  let st1 := fst (run_ui_upload_csv (Some file) st) in
  let st2 := fst (run_ui_upload_csv (Some file) st1) in
  exists failure,
    shown st1 = shown st ++ [(Error, failure)]
    /\ shown st2 = shown st1 ++ [(Error, failure)]
    /\ uploaded_csv_answers st2 = None.
Proof.
  intros Hname Hfail st1 st2. subst st1 st2.
  assert (Hrun : exists failure, forall st0,
            last_uploaded_filename st0 <> Some (name file) ->
            run_ui_upload_csv (Some file) st0 =
            (without_single_answer
               (set_csv None None
                  (emit [(Error, failure)]
                     (set_csv (uploaded_csv_answers st0) (Some (name file)) st0))),
             Returned tt)).
  { destruct Hfail as [[e Hread]|(df & Hread & Hcol)].
    - exists (CsvProcessingError e). intros st0 Hname0.
      apply (upload_new_name _ _ _ Hname0 (load_csv_unreadable _ _ _ Hread)).
    - exists CsvMissingAnswers. intros st0 Hname0.
      apply (upload_new_name _ _ _ Hname0 (load_csv_missing _ _ _ Hread Hcol)). }
  destruct Hrun as [failure Hrun]. exists failure.
  rewrite (Hrun st Hname). cbn [fst].
  match goal with
  | |- context [without_single_answer ?s] =>
      destruct (without_single_answer_fields s) as (_ & _ & Hlast & Hshown & _);
      set (st1 := without_single_answer s) in *
  end.
  assert (Hname1 : last_uploaded_filename st1 <> Some (name file))
    by (rewrite Hlast; discriminate).
  rewrite (Hrun st1 Hname1). cbn [fst].
  match goal with
  | |- context [without_single_answer ?s] =>
      destruct (without_single_answer_fields s) as (_ & -> & _ & -> & _)
  end.
  rewrite Hshown. repeat split.
  cbn [shown set_csv emit]. rewrite Hshown. reflexivity.
Qed.

(** X20.  The branch of the upload returns, whatever the file, also when it
    cannot be read; it leaves the fetched values alone, shows its notices
    behind those shown before, and leaves no single answer behind. *)
Theorem upload_branch_frame uploaded_file st :
  let st' := fst (run_ui_upload_csv uploaded_file st) in
  snd (run_ui_upload_csv uploaded_file st) = Returned tt
  /\ fetched_variable_values st' = fetched_variable_values st
  /\ truthy (single_answer st') = false
  /\ exists ws, shown st' = shown st ++ ws.
Proof.
  intros st'. subst st'.
  destruct (upload_cases uploaded_file st) as (answers & kept & ws & -> & _).
  cbn [fst snd].
  destruct (without_single_answer_fields (emit ws (set_csv answers kept st)))
    as (-> & _ & _ & -> & ->).
  repeat split. exists ws. reflexivity.
Qed.

End UploadExtras.


(** A broken file after a loaded batch. *)
Lemma unreadable_upload_clears_batch_witness :
  let st' := fst (run_ui_upload_csv (H := repr_sample) (Some broken_file)
                    session_with_answers) in
  snd (run_ui_upload_csv (H := repr_sample) (Some broken_file) session_with_answers)
  = Returned tt
  /\ uploaded_csv_answers st' = None
  /\ last_uploaded_filename st' = None
  /\ shown st' = [(Error, CsvProcessingError ParserError)].
Proof.
  apply (unreadable_upload_clears_batch (H := repr_sample) broken_file ParserError
           session_with_answers); [discriminate | reflexivity].
Defined.

(** The file of the loaded batch, with another table in it. *)
Lemma upload_under_kept_name_is_not_read_witness :
  let st' := fst (run_ui_upload_csv (H := repr_sample) (Some responses_file)
                    session_with_answers) in
  run_ui_upload_csv (H := repr_sample) (Some responses_file) session_with_answers
  = run_ui_upload_csv (H := repr_sample)
      (Some {| name := "answers.csv"; read_csv := Raised ParserError |})
      session_with_answers
  /\ uploaded_csv_answers st' = Some [PStr "old answer"]
  /\ last_uploaded_filename st' = Some "answers.csv".
Proof.
  apply (upload_under_kept_name_is_not_read (H := repr_sample) responses_file
           (Raised ParserError) session_with_answers). reflexivity.
Defined.

(** The uploader emptied after a loaded batch. *)
Lemma emptied_uploader_drops_batch_witness :
  let st' := fst (run_ui_upload_csv (H := repr_sample) None session_with_answers) in
  uploaded_csv_answers st' = None
  /\ last_uploaded_filename st' = None
  /\ shown st' = [(Info, CsvUploaderEmpty)].
Proof.
  apply (proj1 (emptied_uploader_drops_batch (H := repr_sample) session_with_answers)
           "answers.csv"). reflexivity.
Defined.

(** The table without the column, twice. *)
Lemma failed_upload_is_read_again_witness :
  let st1 := fst (run_ui_upload_csv (H := repr_sample) (Some responses_file)
                    fresh_session) in
  let st2 := fst (run_ui_upload_csv (H := repr_sample) (Some responses_file) st1) in
  exists failure,
    shown st1 = [(Error, failure)]
    /\ shown st2 = shown st1 ++ [(Error, failure)]
    /\ uploaded_csv_answers st2 = None.
Proof.
  apply (failed_upload_is_read_again (H := repr_sample) responses_file fresh_session);
    [discriminate|].
  right. exists [("Responses", [PStr "yes"; PStr "no"])]. split; reflexivity.
Defined.

(** ** Runs of the page *)

(** The text areas of the variables, over any list of names. *)
Lemma rendered_values (text_area : string -> pyval -> string) (names : list string)
    (m : gmap string pyval) :
  let m' := fold_left
              (fun m var_name =>
                 <[var_name := PStr (text_area var_name (default (PStr "") (m !! var_name)))]> m)
              names m in
  dom m' = dom m ∪ list_to_set names
  /\ (forall key, In key names -> exists text, m' !! key = Some (PStr text))
  /\ (forall key, ~ In key names -> m' !! key = m !! key).
Proof.
  revert m. induction names as [|var_name names IH]; intros m m'; subst m'.
  - simpl. split; [symmetry; apply (right_id_L ∅ (∪))|].
    split; [intros key []|reflexivity].
  - cbn [fold_left].
    destruct (IH (<[var_name := PStr (text_area var_name
                                        (default (PStr "") (m !! var_name)))]> m))
      as (Hdom & Hin & Hout).
    split; [|split].
    + rewrite Hdom, dom_insert_L. simpl.
      apply set_eq. intros x. rewrite !elem_of_union. tauto.
    + intros key Hkey.
      destruct (in_dec String.string_dec key names) as [Hlater|Hnot]; [auto|].
      destruct Hkey as [->|Hkey]; [|contradiction].
      rewrite (Hout _ Hnot), lookup_insert_eq. eauto.
    + intros key Hkey. rewrite Hout by (intros Hlater; apply Hkey; right; assumption).
      apply lookup_insert_ne. intros ->. apply Hkey. left. reflexivity.
Qed.

Section PageFacts.

Context `{Repr}.

Lemma set_fetched_same st : set_fetched (fetched_variable_values st) st = st.
Proof. destruct st. reflexivity. Qed.

Lemma variables_run text_area st :
  exists m,
    run_ui_variables text_area st = (set_fetched m st, Returned tt)
    /\ dom m = dom (fetched_variable_values st) ∪ list_to_set PREDEFINED_VARIABLES
    /\ (forall key, In key PREDEFINED_VARIABLES -> exists text, m !! key = Some (PStr text))
    /\ (forall key, ~ In key PREDEFINED_VARIABLES ->
                    m !! key = fetched_variable_values st !! key).
Proof.
  eexists. split; [reflexivity|].
  apply (rendered_values text_area PREDEFINED_VARIABLES (fetched_variable_values st)).
Qed.

Lemma text_box_run text st :
  run_ui_text_box text st =
  (match uploaded_csv_answers st with
   | Some _ => set_csv None None (set_single_answer (PStr text) st)
   | None => set_single_answer (PStr text) st
   end,
   Returned tt).
Proof.
  unfold run_ui_text_box, bind, update. cbn [uploaded_csv_answers set_single_answer].
  destruct (uploaded_csv_answers st); reflexivity.
Qed.

Lemma fetch_stage w st :
  exists ws m,
    match fetch_button w with
    | Some net =>
        bind (fetch_and_populate_variables_action (content_url_field w) net)
             (fun _ => ret tt)
    | None => ret tt
    end st = (emit ws (set_fetched m st), Returned tt)
    /\ (dom (fetched_variable_values st) = list_to_set PREDEFINED_VARIABLES ->
        dom m = list_to_set PREDEFINED_VARIABLES).
Proof.
  destruct (fetch_button w) as [net|].
  - destruct (fetch_uniform (content_url_field w) net) as (ws & m & ok & Hdom & Hrun).
    exists ws, m. split; [|auto].
    rewrite (bind_returned _ _ st _ ok (Hrun st)). reflexivity.
  - exists [], (fetched_variable_values st).
    rewrite set_fetched_same, emit_nil. auto.
Qed.

Lemma answers_stage w st :
  exists st',
    (if answer_radio w then run_ui_upload_csv (file_uploader w)
     else run_ui_text_box (answer_area w)) st = (st', Returned tt)
    /\ fetched_variable_values st' = fetched_variable_values st.
Proof.
  destruct (answer_radio w).
  - destruct (upload_cases (file_uploader w) st) as (answers & kept & ws & -> & _).
    eexists. split; [reflexivity|].
    destruct (without_single_answer_fields (emit ws (set_csv answers kept st))) as (-> & _).
    reflexivity.
  - rewrite text_box_run. eexists. split; [reflexivity|].
    destruct (uploaded_csv_answers st); reflexivity.
Qed.

Lemma generate_stage w st :
  exists ws final_prompts,
    generate_prompt_action (prompt_template_area w) (fetched_variable_values st)
      (content_url_field w) (answers_payload (answer_radio w) st)
      (answer_method (answer_radio w)) st
    = (emit (ws ++ [(Success, ProcessingComplete)]) st, Returned final_prompts)
    /\ run_ui_generate w st =
       (emit (ws ++ [(Success, ProcessingComplete)]) st,
        Returned {| variables_table :=
                      if bool_decide (fetched_variable_values st = ∅) then None
                      else Some (all_vars_for_template (fetched_variable_values st));
                    prompts := final_prompts |}).
Proof.
  destruct (generate_uniform (prompt_template_area w) (fetched_variable_values st)
              (content_url_field w) (answers_payload (answer_radio w) st)
              (answer_method (answer_radio w))) as (ws & final_prompts & Hrun).
  exists ws, final_prompts. split; [apply Hrun|].
  unfold run_ui_generate. rewrite (bind_returned _ _ st _ final_prompts (Hrun st)).
  reflexivity.
Qed.

(** One run of the page: the fetch if its button was clicked, the text areas
    of the variables, the answers, and the generation if its button was
    clicked. *)
Lemma run_ui_stages w st :
  exists ws1 (m1 m2 : gmap string pyval) st3 ws4 final_prompts,
    (dom (fetched_variable_values st) = list_to_set PREDEFINED_VARIABLES ->
     dom m1 = list_to_set PREDEFINED_VARIABLES)
    /\ dom m2 = dom m1 ∪ list_to_set PREDEFINED_VARIABLES
    /\ (forall key, In key PREDEFINED_VARIABLES -> exists text, m2 !! key = Some (PStr text))
    /\ (if answer_radio w then run_ui_upload_csv (file_uploader w)
        else run_ui_text_box (answer_area w)) (emit ws1 (set_fetched m2 st))
       = (st3, Returned tt)
    /\ fetched_variable_values st3 = m2
    /\ generate_prompt_action (prompt_template_area w) m2
         (content_url_field w) (answers_payload (answer_radio w) st3)
         (answer_method (answer_radio w)) st3
       = (emit (ws4 ++ [(Success, ProcessingComplete)]) st3, Returned final_prompts)
    /\ run_ui w st =
       if generate_button w
       then (emit (ws4 ++ [(Success, ProcessingComplete)]) st3,
             Returned (Some {| variables_table :=
                                 if bool_decide (m2 = ∅) then None
                                 else Some (all_vars_for_template m2);
                               prompts := final_prompts |}))
       else (st3, Returned None).
Proof.
  destruct (fetch_stage w st) as (ws1 & m1 & Hfetch & Hdom).
  destruct (variables_run (variable_area w) (emit ws1 (set_fetched m1 st)))
    as (m2 & Hvars & Hdom2 & Htext & _).
  cbn [fetched_variable_values emit set_fetched] in Hdom2.
  rewrite set_fetched_emit in Hvars.
  assert (Hset : set_fetched m2 (set_fetched m1 st) = set_fetched m2 st) by reflexivity.
  rewrite Hset in Hvars.
  destruct (answers_stage w (emit ws1 (set_fetched m2 st))) as (st3 & Hanswers & Hm).
  cbn [fetched_variable_values emit set_fetched] in Hm.
  destruct (generate_stage w st3) as (ws4 & final_prompts & Hgen & Hpage).
  rewrite Hm in Hgen, Hpage.
  exists ws1, m1, m2, st3, ws4, final_prompts.
  repeat (split; [assumption|]).
  unfold run_ui.
  rewrite (bind_returned _ _ st _ tt Hfetch).
  rewrite (bind_returned _ _ _ _ tt Hvars).
  rewrite (bind_returned _ _ _ _ tt Hanswers).
  destruct (generate_button w); [|reflexivity].
  rewrite (bind_returned _ _ st3 _ _ Hpage). reflexivity.
Qed.


Lemma generate_text_prompts prompt_template m content_url text st :
  snd (generate_prompt_action prompt_template m content_url (PStr text) TEXT_BOX st)
  = Returned [fill prompt_template
                (dict_set "student_answer" (PStr text) (all_vars_for_template m))].
Proof.
  rewrite generate_text_box_exact. cbn [snd truthy].
  destruct (String.eqb_spec text "") as [->|_]; reflexivity.
Qed.








End PageFacts.

Section PageExtras.

Context `{Repr}.



(** X23.  A run with the text box chosen and the generate button clicked
    makes exactly one prompt: the template filled from the variables as the
    text areas left them and from the text of the answer box, which is
    also what the session keeps as single answer; no batch is kept. *)
Theorem text_box_run_makes_one_prompt w st :
  answer_radio w = false ->
  generate_button w = true ->
  let st' := fst (run_ui w st) in
  exists g,
    snd (run_ui w st) = Returned (Some g)
    /\ prompts g = [fill (prompt_template_area w)
                      (dict_set "student_answer" (PStr (answer_area w))
                         (all_vars_for_template (fetched_variable_values st')))]
    /\ single_answer st' = PStr (answer_area w)
    /\ uploaded_csv_answers st' = None.
Proof.
  intros Hradio Hclick st'. subst st'.
  destruct (run_ui_stages w st)
    as (ws1 & m1 & m2 & st3 & ws4 & final_prompts
        & _ & _ & _ & Hanswers & Hm & Hgen & ->).
  rewrite Hclick. cbn [fst snd fetched_variable_values emit]. rewrite Hm.
  rewrite Hradio in Hanswers, Hgen. rewrite text_box_run in Hanswers.
  assert (Hsingle : single_answer st3 = PStr (answer_area w)
                    /\ uploaded_csv_answers st3 = None).
  { cbn [uploaded_csv_answers emit set_fetched] in Hanswers.
    destruct (uploaded_csv_answers st) eqn:Hu; injection Hanswers as <-;
      split; try reflexivity.
    exact Hu. }
  destruct Hsingle as [Hsingle Hnone].
  cbn [answers_payload answer_method] in Hgen. rewrite Hsingle in Hgen.
  pose proof (generate_text_prompts (prompt_template_area w) m2 (content_url_field w)
                (answer_area w) st3) as Hone.
  rewrite Hgen in Hone. cbn [snd] in Hone. injection Hone as ->.
  eexists. split; [reflexivity|]. cbn [prompts single_answer uploaded_csv_answers].
  auto.
Qed.



End PageExtras.



(** The answer of the text box in the template. *)
Lemma text_box_run_makes_one_prompt_witness :
  exists g,
    snd (run_ui (H := repr_sample) (text_widgets "I like tea.") initial_session)
    = Returned (Some g)
    /\ prompts g = ["Answer: I like tea."].
Proof.
  destruct (text_box_run_makes_one_prompt (H := repr_sample)
              (text_widgets "I like tea.") initial_session eq_refl eq_refl)
    as (g & Hg & Hp & _).
  exists g. split; [exact Hg|]. rewrite Hp. vm_compute. reflexivity.
Defined.


